(** * Ice Cream Shop API: a shallow embedding of [main.py] and [schemas.py]

    The development follows the two source files of the service:

    - [Py]: the fragment of Python the handlers rely on (exceptions, a
      state-and-exception monad for code that mutates a local dict or the
      shared store, insertion-ordered dicts, [sum], slicing);
    - [Bson]: [bson.ObjectId] and its [str];
    - [Database]: the gateway imported from [database] ([db],
      [create_document], [get_documents]);
    - [Schemas]: the pydantic models of [schemas.py];
    - [Main]: the helpers and handlers of [main.py].

    Floating-point fields are IEEE 754 binary64 values (Rocq's primitive
    floats), as in CPython. *)

From Stdlib Require Import ZArith NArith List String Ascii Bool Floats Lia.
From stdpp Require Import base option list strings gmap.

Set Default Proof Using "Type".

(* ===================================================================== *)
(** * [bson.ObjectId]                                                      *)
(* ===================================================================== *)

Module Bson.

(** An ObjectId is 12 bytes; [binary] is their big-endian value. *)
Record ObjectId := { binary : N }.

Definition hex_digit (n : N) : ascii :=
  match n with
  | 0 => "0" | 1 => "1" | 2 => "2" | 3 => "3" | 4 => "4" | 5 => "5"
  | 6 => "6" | 7 => "7" | 8 => "8" | 9 => "9" | 10 => "a" | 11 => "b"
  | 12 => "c" | 13 => "d" | 14 => "e" | _ => "f"
  end%N%char.

(** The lowest [digits] hexadecimal digits of [n], most significant first. *)
Fixpoint hex (digits : nat) (n : N) (acc : string) : string :=
  match digits with
  | O => acc
  | S d => hex d (n / 16)%N (String (hex_digit (n mod 16)%N) acc)
  end.

(** [str(oid)]: 24 lowercase hexadecimal digits. *)
Definition str (o : ObjectId) : string := hex 24 (binary o) "".

End Bson.

(* ===================================================================== *)
(** * Python fragment                                                      *)
(* ===================================================================== *)

Module Py.

(** ** Exceptions and results *)

(** One entry of pydantic's [ValidationError.errors()]: where, and which
    constraint. *)
Inductive loc_item := Key (k : string) | Idx (i : nat).

Record error_details := { loc : list loc_item; type : string }.

Inductive exn :=
| ValidationError (errors : list error_details)
| StoreUnavailable (msg : string)
| Exception (msg : string).

(** [str(e)] for an exception. For a [ValidationError] the text pydantic
    prints is not modelled beyond a fixed heading. *)
Definition str_exn (e : exn) : string :=
  match e with
  | ValidationError _ => "validation error"
  | StoreUnavailable msg => msg
  | Exception msg => msg
  end.

Inductive result (A : Type) :=
| Ok (a : A)
| Raise (e : exn).
Arguments Ok {A} a.
Arguments Raise {A} e.

(** ** Code with a mutable state [S] that may raise

    A raising computation keeps the state it had reached: what was written
    before the exception stays written. *)
Definition M (S A : Type) : Type := S -> result A * S.

Definition ret {S A} (a : A) : M S A := fun s => (Ok a, s).

Definition bind {S A B} (m : M S A) (k : A -> M S B) : M S B :=
  fun s =>
    match m s with
    | (Ok a, s') => k a s'
    | (Raise e, s') => (Raise e, s')
    end.

Definition raise {S A} (e : exn) : M S A := fun s => (Raise e, s).

Definition get {S} : M S S := fun s => (Ok s, s).

Definition modify {S} (f : S -> S) : M S unit := fun s => (Ok tt, f s).

(** [try: body except Exception as e: handler e]. *)
Definition try_except {S A} (body : M S A) (handler : exn -> M S A) : M S A :=
  fun s =>
    match body s with
    | (Ok a, s') => (Ok a, s')
    | (Raise e, s') => handler e s'
    end.

(** Lifting a pure result into the monad. *)
Definition lift {S A} (r : result A) : M S A := fun s => (r, s).

(** [for x in xs: acc = body acc x], left to right, stopping at the first
    exception. *)
Fixpoint for_each {S A B} (xs : list B) (body : A -> B -> M S A) (acc : A) : M S A :=
  match xs with
  | [] => ret acc
  | x :: xs' => bind (body acc x) (for_each xs' body)
  end.

(** ** Strings

    A [string] stands for a Python [str], one [ascii] for each character.
    The literals of the source that hold symbols outside ASCII are kept as
    their UTF-8 bytes; they are compared and concatenated, never sliced. *)

(** [s[:n]]. *)
Definition slice_to (n : nat) (s : string) : string := String.substring 0 n s.

(** Truthiness of [Optional[str]]: [None] and the empty string are false. *)
Definition truthy_str (o : option string) : bool :=
  match o with
  | None => false
  | Some s => negb (String.eqb s "")
  end.

(** ** Numbers *)

(** [float(n)] for an [int] in the range of a 63-bit machine integer; the
    only integers converted here are scoop counts. *)
Definition float_of_int (z : Z) : float :=
  if (0 <=? z)%Z then PrimFloat.of_uint63 (Uint63.of_Z z)
  else (- PrimFloat.of_uint63 (Uint63.of_Z (- z)))%float.

(** The floats [x] with [x >= 0]: zeros of either sign, positive numbers
    and positive infinity, as the specification of binary64 classes them. *)
Definition nonneg (x : spec_float) : bool :=
  match x with
  | S754_zero _ => true
  | S754_infinity s | S754_finite s _ _ => negb s
  | S754_nan => false
  end.

(** [sum(xs)] over floats: the start value [0], then the items added from
    left to right, each addition rounded to binary64. (CPython from 3.12 on
    also carries a compensation term for the rounding errors of the
    additions; sums that are exact, as in the examples here, are the same
    either way.) *)
Definition sum (xs : list float) : float := fold_left PrimFloat.add xs 0%float.

(** ** Values

    The values a document is made of: the JSON kinds, and the store's
    native identifier. A dict is the list of its items in insertion
    order. *)
#[warnings="-register-all"]
Inductive value :=
| VNone
| VBool (b : bool)
| VInt (z : Z)
| VFloat (f : float)
| VStr (s : string)
| VObjectId (o : Bson.ObjectId)
| VList (l : list value)
| VDict (d : list (string * value)).

Definition document : Type := list (string * value).

(** ** Insertion-ordered dicts *)

Section Dict.
Context {V : Type}.

(** [d[k] = v]: replaces the value in place when the key is present,
    appends the key otherwise. *)
Fixpoint dict_set (d : list (string * V)) (k : string) (v : V) : list (string * V) :=
  match d with
  | [] => [(k, v)]
  | (k', v') :: d' =>
      if String.eqb k' k then (k', v) :: d' else (k', v') :: dict_set d' k v
  end.

(** [d.get(k)]. *)
Fixpoint dict_get (d : list (string * V)) (k : string) : option V :=
  match d with
  | [] => None
  | (k', v) :: d' => if String.eqb k' k then Some v else dict_get d' k
  end.

Definition keys (d : list (string * V)) : list string := map fst d.

(** The loop [for k, v in d.items(): new_doc[k] = f(v)], started with
    [new_doc]. *)
Definition assign_all (f : V -> V) (d new_doc : list (string * V)) : list (string * V) :=
  fold_left (fun new_doc kv => dict_set new_doc (fst kv) (f (snd kv))) d new_doc.
End Dict.

End Py.

#[global] Instance M_ret {S} : MRet (Py.M S) := fun A => @Py.ret S A.
#[global] Instance M_bind {S} : MBind (Py.M S) := fun A B k m => @Py.bind S A B m k.

(* ===================================================================== *)
(** * The store gateway ([database])                                       *)
(* ===================================================================== *)

Module Database.
Import Py.

(** Reading an attribute of an object: absent, present, or a property whose
    getter raises. *)
Inductive attr (A : Type) :=
| AttrMissing
| AttrValue (a : A)
| AttrRaises (msg : string).
Arguments AttrMissing {A}.
Arguments AttrValue {A} a.
Arguments AttrRaises {A} msg.

(** [hasattr(obj, a)] answers [False] for an absent attribute and lets any
    other failure of the getter through. *)
Definition hasattr {A} (a : attr A) : result bool :=
  match a with
  | AttrMissing => Ok false
  | AttrValue _ => Ok true
  | AttrRaises msg => Raise (Exception msg)
  end.

(** [obj.a]. *)
Definition getattr {A} (a : attr A) : result A :=
  match a with
  | AttrMissing => Raise (Exception "AttributeError")
  | AttrValue v => Ok v
  | AttrRaises msg => Raise (Exception msg)
  end.

(** Modelled from the spec: the store behind [db], which [database.py]
    (not among the sources) creates. A store groups documents into named
    collections, kept here in insertion order, and assigns each inserted
    document its identity. [fault] is [Some msg] when the store cannot be
    reached: every operation on it then raises with that text. *)
Record Database := {
  name : attr string;
  fault : option string;
  collections : gmap string (list document);
  next_id : N
}.

(** The module-level [db]: [None] when no store was configured. *)
Definition handle : Type := option Database.

(** The truth value of the handle, as [if db] takes it. [None] is false. A
    handle that is there is a pymongo [Database], the object whose
    [list_collection_names], [count_documents] and [name] the handlers use:
    it does not implement truth value testing, and the test raises
    [NotImplementedError] with this text. *)
Definition truth_error : string :=
  "Database objects do not implement truth value testing or bool(). Please compare with None instead: database is not None".

Definition truth (db : handle) : result bool :=
  match db with
  | None => Ok false
  | Some _ => Raise (Exception truth_error)
  end.

(** Modelled from the spec: a call that goes to the store fails when the
    store cannot be reached. *)
Definition reach (d : Database) : result unit :=
  match fault d with
  | Some msg => Raise (Exception msg)
  | None => Ok tt
  end.

(** Modelled from the spec: the documents of a collection, in insertion
    order; a collection never written to has none. *)
Definition find_all (d : Database) (collection_name : string) : list document :=
  default [] (collections d !! collection_name).

(** Modelled from the spec: [db[c].count_documents({})], the number of
    documents of a collection (pymongo is not among the sources). *)
Definition count_documents (d : Database) (collection_name : string) : result Z :=
  match reach d with
  | Raise e => Raise e
  | Ok _ => Ok (Z.of_nat (length (find_all d collection_name)))
  end.

(** Modelled from the spec: [db.list_collection_names()], the names of the
    collections of the store (pymongo is not among the sources). *)
Definition list_collection_names (d : Database) : result (list string) :=
  match reach d with
  | Raise e => Raise e
  | Ok _ => Ok (map fst (map_to_list (collections d)))
  end.

(** Modelled from the spec: the document as stored, the identity the store
    assigned under [_id], then its fields. *)
Definition with_id (o : Bson.ObjectId) (data : document) : document :=
  ("_id", VObjectId o) :: List.filter (fun kv => negb (String.eqb (fst kv) "_id")) data.

(** Modelled from the spec: one insert appends the document to its
    collection under a fresh identity. *)
Definition insert_one (d : Database) (collection_name : string) (data : document)
  : Bson.ObjectId * Database :=
  let o := {| Bson.binary := next_id d |} in
  (o, {| name := name d;
         fault := fault d;
         collections :=
           <[collection_name := find_all d collection_name ++ [with_id o data]]>
             (collections d);
         next_id := N.succ (next_id d) |}).

(** Modelled from the spec: [create_document(collection_name, data)] of
    [database.py] (not among the sources) inserts one document into the
    named collection and returns its assigned identity as a string; with no
    store, or one that cannot be reached, it raises. *)
Definition create_document (collection_name : string) (data : document)
  : M handle string :=
  fun db =>
    match db with
    | None => (Raise (StoreUnavailable "Database not available"), db)
    | Some d =>
        match reach d with
        | Raise e => (Raise (StoreUnavailable (str_exn e)), db)
        | Ok _ =>
            let '(o, d') := insert_one d collection_name data in
            (Ok (Bson.str o), Some d')
        end
    end.

(** Modelled from the spec: [get_documents(collection_name)] of
    [database.py] (not among the sources) returns all documents of the named
    collection, in the store's order; with no store, or one that cannot be
    reached, it raises. *)
Definition get_documents (collection_name : string) : M handle (list document) :=
  fun db =>
    match db with
    | None => (Raise (StoreUnavailable "Database not available"), db)
    | Some d =>
        match reach d with
        | Raise e => (Raise (StoreUnavailable (str_exn e)), db)
        | Ok _ => (Ok (find_all d collection_name), db)
        end
    end.

End Database.

(* ===================================================================== *)
(** * [schemas.py]                                                         *)
(* ===================================================================== *)

(** What the models use of pydantic. A model is built from the fields the
    caller supplied, each already of its JSON type; [None] is an omitted
    field. Every field is checked, and the errors of all of them are
    reported together. *)
Module Pydantic.
Import Py.

Definition checked (A : Type) : Type := list error_details + A.

Definition error (k : string) (ty : string) : error_details :=
  {| loc := [Key k]; type := ty |}.

(** [Field(...)]: a required field. *)
Definition required {A} (k : string) (x : option A) : checked A :=
  match x with
  | Some a => inr a
  | None => inl [error k "missing"]
  end.

(** [Field(d)], [Field(default_factory=...)], [= None]: a field with a
    default. *)
Definition defaulted {A} (d : A) (x : option A) : checked A :=
  inr (default d x).

(** [Optional[...] = Field(None)]: omitted is [None]. *)
Definition optional {A} (x : option A) : checked (option A) := inr x.

(** [Optional[...] = Field(None, ...)] with constraints: they bind a value
    that was supplied, and [None] passes. *)
Definition optional_with {A} (constraints : checked A -> checked A) (x : option A)
  : checked (option A) :=
  match x with
  | None => inr None
  | Some a =>
      match constraints (inr a) with
      | inr a' => inr (Some a')
      | inl e => inl e
      end
  end.

(** A constraint on a field that was supplied. *)
Definition constrain {A} (k ty : string) (holds : A -> bool) (x : checked A) : checked A :=
  match x with
  | inr a => if holds a then inr a else inl [error k ty]
  | inl e => inl e
  end.

Definition ge_int (k : string) (bound : Z) : checked Z -> checked Z :=
  constrain k "greater_than_equal" (fun z => (bound <=? z)%Z).

Definition le_int (k : string) (bound : Z) : checked Z -> checked Z :=
  constrain k "less_than_equal" (fun z => (z <=? bound)%Z).

(** [ge=bound] on a float: [value >= bound], which a NaN fails. *)
Definition ge_float (k : string) (bound : float) : checked float -> checked float :=
  constrain k "greater_than_equal" (fun f => (bound <=? f)%float).

(** Building the model: the instance, or a [ValidationError] with every
    error found. *)
Definition construct {A} (x : checked A) : result A :=
  match x with
  | inr a => Ok a
  | inl e => Raise (ValidationError e)
  end.

(** A check that fails tells why: its list of errors is not empty. *)
Definition told {A} (x : checked A) : Prop :=
  match x with
  | inl es => es <> []
  | inr _ => True
  end.

Definition errors {A} (x : checked A) : list error_details :=
  match x with
  | inl e => e
  | inr _ => []
  end.

(** Errors of a nested value, reported under the enclosing location. *)
Definition under (outer : loc_item) (e : error_details) : error_details :=
  {| loc := outer :: loc e; type := type e |}.

End Pydantic.

Module User.
Import Py Pydantic.

Record t := {
  name : string;
  email : string;
  address : string;
  age : option Z;
  is_active : bool
}.

Record input := {
  in_name : option string;
  in_email : option string;
  in_address : option string;
  in_age : option Z;
  in_is_active : option bool
}.

Definition check (i : input) : checked t :=
  match required "name" (in_name i),
        required "email" (in_email i),
        required "address" (in_address i),
        optional_with (fun a => le_int "age" 120 (ge_int "age" 0 a)) (in_age i),
        defaulted true (in_is_active i)
  with
  | inr n, inr e, inr a, inr ag, inr act =>
      inr {| name := n; email := e; address := a; age := ag; is_active := act |}
  | n, e, a, ag, act =>
      inl (errors n ++ errors e ++ errors a ++ errors ag ++ errors act)
  end.

(** [User(...)]. *)
Definition validate (i : input) : result t := construct (check i).

End User.

Module Product.
Import Py Pydantic.

Record t := {
  title : string;
  description : option string;
  price : float;
  category : string;
  in_stock : bool
}.

Record input := {
  in_title : option string;
  in_description : option string;
  in_price : option float;
  in_category : option string;
  in_in_stock : option bool
}.

Definition check (i : input) : checked t :=
  match required "title" (in_title i),
        optional (in_description i),
        ge_float "price" 0 (required "price" (in_price i)),
        required "category" (in_category i),
        defaulted true (in_in_stock i)
  with
  | inr ti, inr d, inr p, inr c, inr st =>
      inr {| title := ti; description := d; price := p; category := c;
             in_stock := st |}
  | ti, d, p, c, st =>
      inl (errors ti ++ errors d ++ errors p ++ errors c ++ errors st)
  end.

(** [Product(...)]. *)
Definition validate (i : input) : result t := construct (check i).

End Product.

Module Icecream.
Import Py Pydantic.

Record t := {
  name : string;
  description : option string;
  price : float;
  tags : list string;
  image : option string;
  is_available : bool
}.

Record input := {
  in_name : option string;
  in_description : option string;
  in_price : option float;
  in_tags : option (list string);
  in_image : option string;
  in_is_available : option bool
}.

Definition check (i : input) : checked t :=
  match required "name" (in_name i),
        optional (in_description i),
        ge_float "price" 0 (required "price" (in_price i)),
        defaulted [] (in_tags i),
        optional (in_image i),
        defaulted true (in_is_available i)
  with
  | inr n, inr d, inr p, inr tg, inr im, inr av =>
      inr {| name := n; description := d; price := p; tags := tg;
            image := im; is_available := av |}
  | n, d, p, tg, im, av =>
      inl (errors n ++ errors d ++ errors p ++ errors tg ++ errors im ++ errors av)
  end.

(** [Icecream(...)]. *)
Definition validate (i : input) : result t := construct (check i).

(** The strings of a list of strings. *)
Fixpoint strings_of (l : list value) : option (list string) :=
  match l with
  | [] => Some []
  | VStr s :: l' =>
      match strings_of l' with
      | Some ss => Some (s :: ss)
      | None => None
      end
  | _ => None
  end.

(** The fields a document supplies when an [Icecream] is built from its
    items (the double-star call): the value under
    each field's key, when it is of the field's kind. Keys that are not
    fields are ignored; a value of another kind is outside this reading and
    counts as not supplied. *)
Definition of_document (doc : document) : input :=
  {| in_name := match dict_get doc "name" with Some (VStr s) => Some s | _ => None end;
     in_description :=
       match dict_get doc "description" with Some (VStr s) => Some s | _ => None end;
     in_price :=
       match dict_get doc "price" with Some (VFloat f) => Some f | _ => None end;
     in_tags :=
       match dict_get doc "tags" with Some (VList l) => strings_of l | _ => None end;
     in_image :=
       match dict_get doc "image" with Some (VStr s) => Some s | _ => None end;
     in_is_available :=
       match dict_get doc "is_available" with Some (VBool b) => Some b | _ => None end |}.

End Icecream.

Module OrderItem.
Import Py Pydantic.

Record t := {
  flavor_id : string;
  name : string;
  scoops : Z;
  price : float
}.

Record input := {
  in_flavor_id : option string;
  in_name : option string;
  in_scoops : option Z;
  in_price : option float
}.

Definition check (i : input) : checked t :=
  match required "flavor_id" (in_flavor_id i),
        required "name" (in_name i),
        le_int "scoops" 5 (ge_int "scoops" 1 (required "scoops" (in_scoops i))),
        ge_float "price" 0 (required "price" (in_price i))
  with
  | inr f, inr n, inr s, inr p =>
      inr {| flavor_id := f; name := n; scoops := s; price := p |}
  | f, n, s, p =>
      inl (errors f ++ errors n ++ errors s ++ errors p)
  end.

(** [OrderItem(...)]. *)
Definition validate (i : input) : result t := construct (check i).

(** The fields an instance was built from. *)
Definition supplied (it : t) : input :=
  {| in_flavor_id := Some (flavor_id it); in_name := Some (name it);
     in_scoops := Some (scoops it); in_price := Some (price it) |}.

(** [model_dump()]. *)
Definition model_dump (it : t) : document :=
  [("flavor_id", VStr (flavor_id it)); ("name", VStr (name it));
   ("scoops", VInt (scoops it)); ("price", VFloat (price it))].

End OrderItem.

Module Order.
Import Py Pydantic.

Record t := {
  customer_name : string;
  customer_phone : string;
  items : list OrderItem.t;
  total : float;
  notes : option string
}.

(** The keyword arguments of [Order(...)]; [items] are [OrderItem]
    instances, which are taken as they are. *)
Record input := {
  in_customer_name : option string;
  in_customer_phone : option string;
  in_items : option (list OrderItem.t);
  in_total : option float;
  in_notes : option string
}.

Definition check (i : input) : checked t :=
  match required "customer_name" (in_customer_name i),
        required "customer_phone" (in_customer_phone i),
        required "items" (in_items i),
        ge_float "total" 0 (required "total" (in_total i)),
        optional (in_notes i)
  with
  | inr n, inr ph, inr its, inr tot, inr nt =>
      inr {| customer_name := n; customer_phone := ph; items := its;
            total := tot; notes := nt |}
  | n, ph, its, tot, nt =>
      inl (errors n ++ errors ph ++ errors its ++ errors tot ++ errors nt)
  end.

(** [Order(...)]. *)
Definition validate (i : input) : result t := construct (check i).

Definition dump_optional (o : option string) : value :=
  match o with
  | Some s => VStr s
  | None => VNone
  end.

(** [model_dump()]. *)
Definition model_dump (o : t) : document :=
  [("customer_name", VStr (customer_name o));
   ("customer_phone", VStr (customer_phone o));
   ("items", VList (map (fun it => VDict (OrderItem.model_dump it)) (items o)));
   ("total", VFloat (total o));
   ("notes", dump_optional (notes o))].

End Order.

(* ===================================================================== *)
(** * [main.py]                                                            *)
(* ===================================================================== *)

(** ** Helpers *)

Module ObjectIdEncoder.
Import Py.

(** The value stored under a key of the new dict, given the recursive
    call. *)
Definition encode_item (encode : value -> value) (v : value) : value :=
  match v with
  | VObjectId o => VStr (Bson.str o)
  | VList _ | VDict _ => encode v
  | _ => v
  end.

Fixpoint encode (doc : value) : value :=
  match doc with
  | VList l => VList (map encode l)
  | VDict d =>
      VDict (fold_left
               (fun new_doc kv =>
                  dict_set new_doc (fst kv) (encode_item encode (snd kv)))
               d [])
  | _ => doc
  end.

End ObjectIdEncoder.

(** The routes' plumbing: what [@app.post] with a body model does around
    the endpoint. The body is validated first; a body that fails never
    reaches the endpoint and is answered 422 with the errors. An exception
    of the endpoint itself propagates (a server error). What is modelled is
    the outcome of validation: how the 422 body is rendered, with its echo
    of the refused input, which fails on a value JSON cannot carry (a NaN)
    and then ends in a server error, is not. *)
Module FastAPI.
Import Py Pydantic.

Inductive response (A : Type) :=
| Http200 (content : A)
| Http422 (detail : list error_details).
Arguments Http200 {A} content.
Arguments Http422 {A} detail.

Definition post {S Body Req Res}
  (validate : Body -> result Req) (endpoint : Req -> M S Res) (body : Body)
  : M S (response Res) :=
  match validate body with
  | Ok payload => content ← endpoint payload; mret (Http200 content)
  | Raise (ValidationError errs) => mret (Http422 (map (under (Key "body")) errs))
  | Raise e => raise e
  end.

End FastAPI.

Import Py.

(** ** Root and health *)

(** [response[k] = v] on the handler's local dict. *)
Definition setitem (k : string) (v : value) : M document unit :=
  modify (fun response => dict_set response k v).

Definition test_database (environ : gmap string string) (db : Database.handle)
  : result document :=
  let response :=
    [("backend", VStr "✅ Running");
     ("database", VStr "❌ Not Available");
     ("database_url", VNone);
     ("database_name", VNone);
     ("connection_status", VStr "Not Connected");
     ("collections", VList [])] in
  let body : M document unit :=
    try_except
      (match db with
       | Some d =>
           setitem "database" (VStr "✅ Available");;
           setitem "database_url"
             (VStr (if truthy_str (environ !! "DATABASE_URL")
                    then "✅ Set" else "❌ Not Set"));;
           has_name ← lift (Database.hasattr (Database.name d));
           database_name ←
             (if has_name : bool then lift (Database.getattr (Database.name d))
              else mret "✅ Connected");
           setitem "database_name" (VStr database_name);;
           setitem "connection_status" (VStr "Connected");;
           try_except
             (collections ← lift (Database.list_collection_names d);
              setitem "collections" (VList (map VStr (firstn 10 collections)));;
              setitem "database" (VStr "✅ Connected & Working"))
             (fun e =>
                setitem "database"
                  (VStr ("⚠️  Connected but Error: " +:+ slice_to 50 (str_exn e))))
       | None => setitem "database" (VStr "⚠️  Available but not initialized")
       end)
      (fun e => setitem "database" (VStr ("❌ Error: " +:+ slice_to 50 (str_exn e))))
  in
  match body response with
  | (Ok _, response') => Ok response'
  | (Raise e, _) => Raise e
  end.

(** ** Ice cream flavors *)

Definition get_flavors : M Database.handle value :=
  docs ← Database.get_documents "icecream";
  mret (ObjectIdEncoder.encode (VList (map VDict docs))).

Record SeedResponse := { inserted : Z }.

(** The local [seed] of [seed_flavors]. *)
Definition seed : list document :=
  [ [("name", VStr "Vanilla Bean");
     ("description", VStr "Classic Madagascar vanilla with real bean specks");
     ("price", VFloat 3.5);
     ("tags", VList [VStr "classic"; VStr "creamy"]);
     ("image", VStr "https://images.unsplash.com/photo-1563805042-7684c019e1cb");
     ("is_available", VBool true)];
    [("name", VStr "Dark Chocolate");
     ("description", VStr "70% cocoa, rich and indulgent");
     ("price", VFloat 3.75);
     ("tags", VList [VStr "chocolate"; VStr "rich"]);
     ("image", VStr "https://images.unsplash.com/photo-1551024601-bec78aea704b");
     ("is_available", VBool true)];
    [("name", VStr "Strawberry Swirl");
     ("description", VStr "Fresh strawberries and ribbons of jam");
     ("price", VFloat 3.75);
     ("tags", VList [VStr "fruit"; VStr "fresh"]);
     ("image", VStr "https://images.unsplash.com/photo-1497051788611-2c64812349b4");
     ("is_available", VBool true)];
    [("name", VStr "Mint Choco Chip");
     ("description", VStr "Cool mint with dark chocolate chunks");
     ("price", VFloat 3.75);
     ("tags", VList [VStr "mint"; VStr "choco"]);
     ("image", VStr "https://images.unsplash.com/photo-1625944528146-0f4fee2f8559");
     ("is_available", VBool true)] ].

Definition seed_flavors : M Database.handle SeedResponse :=
  db ← get;
  truthy ← lift (Database.truth db);
  existing ←
    lift (match db, truthy with
          | Some d, true => Database.count_documents d "icecream"
          | _, _ => Ok 0%Z
          end);
  if (existing >? 0)%Z then mret {| inserted := 0 |}
  else
    inserted ←
      for_each seed
        (fun inserted doc =>
           Database.create_document "icecream" doc;;
           mret (inserted + 1)%Z)
        0%Z;
    mret {| inserted := inserted |}.

(** ** Orders *)

Module CreateOrder.
Import Pydantic.

Record t := {
  customer_name : string;
  customer_phone : string;
  items : list OrderItem.t;
  notes : option string
}.

Record input := {
  in_customer_name : option string;
  in_customer_phone : option string;
  in_items : option (list OrderItem.input);
  in_notes : option string
}.

(** [List[OrderItem]]: every element is validated, and its errors are
    reported under its index. *)
Fixpoint check_items (i : nat) (xs : list OrderItem.input) : checked (list OrderItem.t) :=
  match xs with
  | [] => inr []
  | x :: xs' =>
      match OrderItem.check x, check_items (S i) xs' with
      | inr it, inr its => inr (it :: its)
      | it, its => inl (map (under (Idx i)) (errors it) ++ errors its)
      end
  end.

Definition check_list (k : string) (x : checked (list OrderItem.input))
  : checked (list OrderItem.t) :=
  match x with
  | inl e => inl e
  | inr xs =>
      match check_items 0 xs with
      | inr its => inr its
      | inl e => inl (map (under (Key k)) e)
      end
  end.

Definition check (i : input) : checked t :=
  match required "customer_name" (in_customer_name i),
        required "customer_phone" (in_customer_phone i),
        check_list "items" (required "items" (in_items i)),
        optional (in_notes i)
  with
  | inr n, inr ph, inr its, inr nt =>
      inr {| customer_name := n; customer_phone := ph; items := its; notes := nt |}
  | n, ph, its, nt =>
      inl (errors n ++ errors ph ++ errors its ++ errors nt)
  end.

Definition validate (i : input) : result t := construct (check i).

End CreateOrder.

Module OrderResponse.
Record t := { order_id : string; total : float }.
End OrderResponse.

Definition create_order_endpoint (payload : CreateOrder.t)
  : M Database.handle OrderResponse.t :=
  let total :=
    Py.sum (map (fun item =>
                   (OrderItem.price item * float_of_int (OrderItem.scoops item))%float)
              (CreateOrder.items payload)) in
  order_doc ←
    lift (Order.validate
            {| Order.in_customer_name := Some (CreateOrder.customer_name payload);
               Order.in_customer_phone := Some (CreateOrder.customer_phone payload);
               Order.in_items := Some (CreateOrder.items payload);
               Order.in_total := Some total;
               Order.in_notes := CreateOrder.notes payload |});
  oid ← Database.create_document "order" (Order.model_dump order_doc);
  mret {| OrderResponse.order_id := oid; OrderResponse.total := total |}.

(** [POST /api/orders]. *)
Definition post_api_orders (body : CreateOrder.input)
  : M Database.handle (FastAPI.response OrderResponse.t) :=
  FastAPI.post CreateOrder.validate create_order_endpoint body.

(* ===================================================================== *)
(** * The ID normalizer as the specification words it                      *)
(* ===================================================================== *)

Module Spec.
Import Py.

(** Every identifier, wherever it occurs, becomes its string; lists and
    maps are rebuilt in the same order; anything else is unchanged. *)
Fixpoint normalize (v : value) : value :=
  match v with
  | VObjectId o => VStr (Bson.str o)
  | VList l => VList (map normalize l)
  | VDict d => VDict (map (fun kv => (fst kv, normalize (snd kv))) d)
  | _ => v
  end.

(** The total of an order: over the items, in order, the price times the
    scoops, added up from zero. *)
Definition order_total (items : list OrderItem.t) : float :=
  fold_left
    (fun acc item =>
       (acc + OrderItem.price item * float_of_int (OrderItem.scoops item))%float)
    items 0%float.

(** Are the strings pairwise distinct? *)
Fixpoint distinct (l : list string) : bool :=
  match l with
  | [] => true
  | k :: l' => negb (existsb (String.eqb k) l') && distinct l'
  end.

(** The documents the service itself writes and reads back: identifiers sit
    directly under a key of a map (as [_id] does), never as a list element
    or alone, and a map has distinct keys. *)
Fixpoint keyed_ids (v : value) : bool :=
  match v with
  | VObjectId _ => false
  | VList l => forallb keyed_ids l
  | VDict d =>
      distinct (keys d)
      && forallb (fun kv =>
                    match snd kv with
                    | VObjectId _ => true
                    | _ => keyed_ids (snd kv)
                    end) d
  | _ => true
  end.

(** Does an identifier occur anywhere in the value? *)
Fixpoint has_ObjectId (v : value) : bool :=
  match v with
  | VObjectId _ => true
  | VList l => existsb has_ObjectId l
  | VDict d => existsb (fun kv => has_ObjectId (snd kv)) d
  | _ => false
  end.

End Spec.

(** The constraints of [OrderItem] on an instance. *)
Definition item_valid (it : OrderItem.t) : Prop :=
  (1 <= OrderItem.scoops it <= 5)%Z /\ (0 <=? OrderItem.price it)%float = true.

(** The order the endpoint stores for a payload. *)
Definition order_of (payload : CreateOrder.t) : Order.t :=
  {| Order.customer_name := CreateOrder.customer_name payload;
     Order.customer_phone := CreateOrder.customer_phone payload;
     Order.items := CreateOrder.items payload;
     Order.total := Spec.order_total (CreateOrder.items payload);
     Order.notes := CreateOrder.notes payload |}.

(** A field of a handler's answer, when it answered. *)
Definition field (k : string) (r : result document) : option value :=
  match r with
  | Ok response => dict_get response k
  | Raise _ => None
  end.

(** A process environment that sets [DATABASE_URL], and nothing else. *)
Definition environ_with (value : string) : gmap string string :=
  {["DATABASE_URL" := value]}.

(** A reachable store that holds two flavors. *)
Definition two_flavor_store : Database.Database :=
  {| Database.name := Database.AttrValue "shop";
     Database.fault := None;
     Database.collections :=
       {["icecream" :=
           [[("_id", VObjectId {| Bson.binary := 26 |});
             ("name", VStr "Vanilla Bean");
             ("price", VFloat 3.5);
             ("tags", VList [VStr "classic"; VStr "creamy"])];
            [("_id", VObjectId {| Bson.binary := 27 |});
             ("name", VStr "Dark Chocolate");
             ("price", VFloat 3.75);
             ("tags", VList [VStr "chocolate"; VStr "rich"])]]]};
     Database.next_id := 28 |}.

(** A store that is reachable and holds nothing. *)
Definition empty_store : Database.Database :=
  {| Database.name := Database.AttrValue "shop";
     Database.fault := None;
     Database.collections := ∅;
     Database.next_id := 0 |}.

(* ===================================================================== *)
(** * Induction on values                                                  *)
(* ===================================================================== *)

Section value_induction.
Variable P : value -> Prop.
Hypothesis HNone : P VNone.
Hypothesis HBool : forall b, P (VBool b).
Hypothesis HInt : forall z, P (VInt z).
Hypothesis HFloat : forall f, P (VFloat f).
Hypothesis HStr : forall s, P (VStr s).
Hypothesis HObjectId : forall o, P (VObjectId o).
Hypothesis HList : forall l, Forall P l -> P (VList l).
Hypothesis HDict : forall d, Forall (fun kv => P (snd kv)) d -> P (VDict d).

Fixpoint value_nested_ind (v : value) : P v :=
  match v with
  | VNone => HNone
  | VBool b => HBool b
  | VInt z => HInt z
  | VFloat f => HFloat f
  | VStr s => HStr s
  | VObjectId o => HObjectId o
  | VList l =>
      HList l
        ((fix go (l : list value) : Forall P l :=
            match l with
            | [] => List.Forall_nil P
            | x :: l' => @List.Forall_cons _ P x l' (value_nested_ind x) (go l')
            end) l)
  | VDict d =>
      HDict d
        ((fix go (d : list (string * value)) : Forall (fun kv => P (snd kv)) d :=
            match d with
            | [] => List.Forall_nil _
            | kv :: d' =>
                @List.Forall_cons _ (fun kv => P (snd kv)) kv d'
                  (value_nested_ind (snd kv)) (go d')
            end) d)
  end.
End value_induction.

(* ===================================================================== *)
(** * Dicts built by item assignment                                       *)
(* ===================================================================== *)

Section dict_facts.
Context {V : Type}.
Implicit Types (d acc : list (string * V)) (k : string) (v : V).

Lemma dict_set_fresh d k v :
  k ∉ keys d -> dict_set d k v = d ++ [(k, v)].
Proof.
  induction d as [|[k' v'] d IH]; simpl; intros Hk; [reflexivity|].
  apply not_elem_of_cons in Hk as [Hne Hk].
  destruct (String.eqb_spec k' k) as [->|_]; [congruence|].
  now rewrite IH.
Qed.

Lemma keys_dict_set_present d k v :
  k ∈ keys d -> keys (dict_set d k v) = keys d.
Proof.
  induction d as [|[k' v'] d IH]; simpl; intros Hk.
  - now apply elem_of_nil in Hk.
  - destruct (String.eqb_spec k' k) as [->|Hne]; [reflexivity|].
    apply elem_of_cons in Hk as [->|Hk]; [congruence|].
    simpl. f_equal. now apply IH.
Qed.

Lemma keys_dict_set_NoDup d k v :
  NoDup (keys d) -> NoDup (keys (dict_set d k v)).
Proof.
  intros Hnd. destruct (decide (k ∈ keys d)) as [Hin|Hout].
  - now rewrite keys_dict_set_present.
  - rewrite dict_set_fresh by assumption. unfold keys in *.
    rewrite map_app. simpl. apply NoDup_app. split; [assumption|].
    split; [|apply NoDup_singleton].
    intros x Hx Hx'. apply list_elem_of_singleton in Hx' as ->. contradiction.
Qed.

Lemma dict_set_Forall (Q : V -> Prop) d k v :
  Forall (fun kv => Q (snd kv)) d -> Q v ->
  Forall (fun kv => Q (snd kv)) (dict_set d k v).
Proof.
  intros Hd Hv. induction Hd as [|[k' v'] d Hkv Hd IH]; simpl.
  - now repeat constructor.
  - destruct (String.eqb k' k); constructor; assumption.
Qed.

Variable f : V -> V.

Lemma assign_all_NoDup d acc :
  NoDup (keys acc) -> NoDup (keys (assign_all f d acc)).
Proof.
  revert acc. induction d as [|kv d IH]; simpl; intros acc Hacc; [assumption|].
  apply IH. now apply keys_dict_set_NoDup.
Qed.

Lemma assign_all_Forall (Q : V -> Prop) d acc :
  Forall (fun kv => Q (snd kv)) acc ->
  Forall (fun kv => Q (f (snd kv))) d ->
  Forall (fun kv => Q (snd kv)) (assign_all f d acc).
Proof.
  revert acc. induction d as [|kv d IH]; simpl; intros acc Hacc Hd; [assumption|].
  inversion Hd; subst. apply IH; [|assumption]. now apply dict_set_Forall.
Qed.

(** On a dict (distinct keys) the loop appends the items in order. *)
Lemma assign_all_fresh d acc :
  NoDup (keys d) -> (forall k, k ∈ keys d -> k ∉ keys acc) ->
  assign_all f d acc = acc ++ map (fun kv => (fst kv, f (snd kv))) d.
Proof.
  revert acc. induction d as [|[k v] d IH]; simpl; intros acc Hnd Hdisj.
  - now rewrite app_nil_r.
  - apply NoDup_cons in Hnd as [Hk Hnd].
    rewrite dict_set_fresh by (apply Hdisj; left).
    rewrite IH; [now rewrite <- app_assoc|assumption|].
    intros k' Hk'. unfold keys. rewrite map_app. simpl.
    intros Hin. apply elem_of_app in Hin as [Hin|Hin].
    + revert Hin. apply Hdisj. now right.
    + apply list_elem_of_singleton in Hin as ->. contradiction.
Qed.

Lemma assign_all_dict d :
  NoDup (keys d) -> assign_all f d [] = map (fun kv => (fst kv, f (snd kv))) d.
Proof.
  intros Hnd. rewrite assign_all_fresh; [reflexivity|assumption|].
  intros k _ Hk. now apply elem_of_nil in Hk.
Qed.

End dict_facts.

(* ===================================================================== *)
(** * [ObjectIdEncoder.encode]                                             *)
(* ===================================================================== *)

Section encode_facts.
Import ObjectIdEncoder.

Lemma encode_dict d :
  encode (VDict d) = VDict (assign_all (encode_item encode) d []).
Proof. reflexivity. Qed.

Lemma encode_item_twice v :
  encode (encode v) = encode v ->
  encode_item encode (encode_item encode v) = encode_item encode v.
Proof. destruct v; simpl; intros H; try reflexivity; exact H. Qed.

Lemma encode_twice x : encode (encode x) = encode x.
Proof.
  induction x as [| | | | | |l IH|d IH] using value_nested_ind;
    try reflexivity.
  - simpl. f_equal. rewrite map_map. apply map_ext_Forall.
    exact IH.
  - rewrite encode_dict.
    set (new_doc := assign_all (encode_item encode) d []).
    rewrite encode_dict. f_equal.
    rewrite assign_all_dict by (apply assign_all_NoDup; constructor).
    assert (Hfix : Forall (fun kv => encode_item encode (snd kv) = snd kv) new_doc).
    { apply (assign_all_Forall _ (fun w => encode_item encode w = w));
        [constructor|].
      eapply Forall_impl; [exact IH|].
      intros kv Hkv. now apply encode_item_twice. }
    clearbody new_doc. induction Hfix as [|[k v] rest Hkv _ IHrest]; simpl.
    + reflexivity.
    + simpl in Hkv. now rewrite Hkv, IHrest.
Qed.

Lemma distinct_NoDup l : Spec.distinct l = true -> NoDup l.
Proof.
  induction l as [|k l IH]; simpl; intros H; [constructor|].
  apply andb_true_iff in H as [Hk Hl]. constructor; [|now apply IH].
  intros Hin. apply negb_true_iff in Hk.
  assert (existsb (String.eqb k) l = true); [|congruence].
  apply existsb_exists. exists k. split; [now apply list_elem_of_In|].
  apply String.eqb_refl.
Qed.

Lemma encode_normalize x :
  Spec.keyed_ids x = true -> encode x = Spec.normalize x.
Proof.
  induction x as [| | | | | |l IH|d IH] using value_nested_ind;
    try reflexivity; try discriminate.
  - simpl. intros Hl. f_equal. apply map_ext_Forall.
    induction IH as [|v l Hv _ IHl]; [constructor|].
    simpl in Hl. apply andb_true_iff in Hl as [Hv' Hl].
    constructor; auto.
  - intros Hd. simpl in Hd. apply andb_true_iff in Hd as [Hkeys Hd].
    rewrite encode_dict, assign_all_dict by now apply distinct_NoDup.
    simpl. f_equal. clear Hkeys.
    induction IH as [|[k v] d Hv _ IHd]; [reflexivity|].
    simpl in Hd. apply andb_true_iff in Hd as [Hv' Hd].
    simpl. rewrite IHd by assumption. do 2 f_equal.
    simpl in Hv, Hv'. destruct v; try reflexivity; now apply Hv.
Qed.

Lemma normalize_no_ObjectId x : Spec.has_ObjectId (Spec.normalize x) = false.
Proof.
  induction x as [| | | | | |l IH|d IH] using value_nested_ind;
    try reflexivity; simpl.
  - induction IH as [|v l Hv _ IHl]; [reflexivity|].
    simpl. now rewrite Hv, IHl.
  - induction IH as [|[k v] d Hv _ IHd]; [reflexivity|].
    simpl in *. now rewrite Hv, IHd.
Qed.

End encode_facts.

(** C5. Normalizing is idempotent: encoding an encoded value changes
    nothing, for every value; and the list holding one document with an
    identifier under [_id] and a list of two tags encodes to the document
    with the identifier's string and the same tags, both the first time and
    the second. *)
Theorem encode_idempotent :
  (forall x, ObjectIdEncoder.encode (ObjectIdEncoder.encode x) = ObjectIdEncoder.encode x) /\
  (forall X a b,
      ObjectIdEncoder.encode
        (VList [VDict [("_id", VObjectId X); ("tags", VList [VStr a; VStr b])]])
      = VList [VDict [("_id", VStr (Bson.str X)); ("tags", VList [VStr a; VStr b])]]
      /\
      ObjectIdEncoder.encode
        (ObjectIdEncoder.encode
           (VList [VDict [("_id", VObjectId X); ("tags", VList [VStr a; VStr b])]]))
      = VList [VDict [("_id", VStr (Bson.str X)); ("tags", VList [VStr a; VStr b])]]).
Proof.
  split; [exact encode_twice|].
  intros X a b. split; reflexivity.
Qed.

(** C2, at the input where the code departs from it. A document whose
    field holds a list of identifiers keeps those identifiers: only the
    identifier stored directly under a key is replaced by its string. The
    value the specification describes has no identifier left. *)
Theorem encode_keeps_identifiers_in_lists :
  ObjectIdEncoder.encode
    (VList [VDict [("_id", VObjectId {| Bson.binary := 1 |});
                   ("related", VList [VObjectId {| Bson.binary := 2 |}])]])
  = VList [VDict [("_id", VStr "000000000000000000000001");
                  ("related", VList [VObjectId {| Bson.binary := 2 |}])]]
  /\
  Spec.normalize
    (VList [VDict [("_id", VObjectId {| Bson.binary := 1 |});
                   ("related", VList [VObjectId {| Bson.binary := 2 |}])]])
  = VList [VDict [("_id", VStr "000000000000000000000001");
                  ("related", VList [VStr "000000000000000000000002"])]]
  /\
  Spec.has_ObjectId
    (ObjectIdEncoder.encode
       (VList [VDict [("_id", VObjectId {| Bson.binary := 1 |});
                      ("related", VList [VObjectId {| Bson.binary := 2 |}])]]))
  = true
  /\
  ObjectIdEncoder.encode (VObjectId {| Bson.binary := 1 |})
  = VObjectId {| Bson.binary := 1 |}.
Proof. repeat split; reflexivity. Qed.

(** X1. On the documents whose identifiers sit directly under keys, which
    are the documents this service stores, [encode] is the normalizer of
    the specification: it agrees with it, and leaves no identifier. *)
Theorem encode_normalizes_keyed_documents
  (x : value) (Hkeyed : Spec.keyed_ids x = true) :
  ObjectIdEncoder.encode x = Spec.normalize x /\
  Spec.has_ObjectId (ObjectIdEncoder.encode x) = false.
Proof.
  rewrite encode_normalize by assumption.
  split; [reflexivity|apply normalize_no_ObjectId].
Qed.

Lemma encode_normalizes_keyed_documents_witness :
  ObjectIdEncoder.encode
    (VList [VDict [("_id", VObjectId {| Bson.binary := 26 |});
                   ("name", VStr "Vanilla Bean");
                   ("tags", VList [VStr "classic"; VStr "creamy"]);
                   ("maker", VDict [("ref", VObjectId {| Bson.binary := 7 |})])]])
  = VList [VDict [("_id", VStr "00000000000000000000001a");
                  ("name", VStr "Vanilla Bean");
                  ("tags", VList [VStr "classic"; VStr "creamy"]);
                  ("maker", VDict [("ref", VStr "000000000000000000000007")])]].
Proof.
  exact (proj1 (encode_normalizes_keyed_documents
                  (VList [VDict [("_id", VObjectId {| Bson.binary := 26 |});
                                 ("name", VStr "Vanilla Bean");
                                 ("tags", VList [VStr "classic"; VStr "creamy"]);
                                 ("maker",
                                  VDict [("ref", VObjectId {| Bson.binary := 7 |})])]])
                  eq_refl)).
Defined.

(* ===================================================================== *)
(** * Non-negative floats                                                  *)
(* ===================================================================== *)

Section float_facts.

Lemma leb_zero x : (0 <=? x)%float = nonneg (Prim2SF x).
Proof.
  rewrite leb_spec. change (Prim2SF 0) with (S754_zero false).
  destruct (Prim2SF x) as [s|s| |s m e]; try destruct s; reflexivity.
Qed.

Lemma shr_1_nonneg mrs : (0 <= shr_m mrs)%Z -> (0 <= shr_m (shr_1 mrs))%Z.
Proof.
  destruct mrs as [m r s]. simpl. intros Hm.
  destruct m as [|p|p]; [simpl; lia| |lia].
  destruct p; simpl; lia.
Qed.

Lemma iter_pos_invariant {A} (f : A -> A) (I : A -> Prop) :
  (forall x, I x -> I (f x)) -> forall n x, I x -> I (SpecFloat.iter_pos f n x).
Proof.
  intros Hf. induction n as [n IH|n IH|]; simpl; intros x Hx; auto.
Qed.

Lemma shr_nonneg mrs e n :
  (0 <= shr_m mrs)%Z -> (0 <= shr_m (fst (shr mrs e n)))%Z.
Proof.
  intros Hm. destruct n; simpl; try assumption.
  now apply (iter_pos_invariant shr_1 (fun r => (0 <= shr_m r)%Z) shr_1_nonneg).
Qed.

Lemma shr_fexp_nonneg prec emax m e l :
  (0 <= m)%Z -> (0 <= shr_m (fst (shr_fexp prec emax m e l)))%Z.
Proof.
  intros Hm. unfold shr_fexp. apply shr_nonneg.
  destruct l as [|[]]; exact Hm.
Qed.

Lemma round_nearest_even_nonneg m l :
  (0 <= m)%Z -> (0 <= round_nearest_even m l)%Z.
Proof.
  intros Hm. destruct l as [|[]]; simpl; try destruct (Z.even m); lia.
Qed.

Lemma binary_round_aux_nonneg prec emax m e l :
  (0 <= m)%Z -> nonneg (binary_round_aux prec emax false m e l) = true.
Proof.
  intros Hm. unfold binary_round_aux.
  pose proof (shr_fexp_nonneg prec emax m e l Hm) as H1.
  destruct (shr_fexp prec emax m e l) as [mrs' e']. simpl in H1.
  pose proof (shr_fexp_nonneg prec emax _ e' loc_Exact
                (round_nearest_even_nonneg _ (loc_of_shr_record mrs') H1)) as H2.
  destruct (shr_fexp prec emax _ e' loc_Exact) as [mrs'' e'']. simpl in H2.
  destruct (shr_m mrs'') as [|p|p]; [reflexivity| |lia].
  destruct (e'' <=? emax - prec)%Z; reflexivity.
Qed.

Lemma SFadd_nonneg prec emax x y :
  nonneg x = true -> nonneg y = true -> nonneg (SFadd prec emax x y) = true.
Proof.
  destruct x as [sx|sx| |sx mx ex], y as [sy|sy| |sy my ey]; simpl;
    try discriminate; try destruct sx; try destruct sy; try discriminate;
    try reflexivity.
  intros _ _. unfold binary_normalize. simpl.
  unfold binary_round.
  destruct (shl_align _ _ _) as [mz ez].
  now apply binary_round_aux_nonneg.
Qed.

Lemma SFmul_nonneg prec emax x m e :
  nonneg x = true -> nonneg (SFmul prec emax x (S754_finite false m e)) = true.
Proof.
  destruct x as [sx|sx| |sx mx ex]; simpl; try discriminate;
    destruct sx; try discriminate; try reflexivity.
  intros _. now apply binary_round_aux_nonneg.
Qed.

Lemma float_of_int_scoops z :
  (1 <= z <= 5)%Z -> exists m e, Prim2SF (float_of_int z) = S754_finite false m e.
Proof.
  intros Hz.
  assert (z = 1 \/ z = 2 \/ z = 3 \/ z = 4 \/ z = 5)%Z as H by lia.
  destruct H as [->|[->|[->|[->| ->]]]]; vm_compute; eauto.
Qed.

Lemma mul_scoops_nonneg p z :
  (0 <=? p)%float = true -> (1 <= z <= 5)%Z ->
  (0 <=? p * float_of_int z)%float = true.
Proof.
  intros Hp Hz. rewrite leb_zero in *. rewrite mul_spec.
  destruct (float_of_int_scoops z Hz) as (m & e & ->).
  now apply SFmul_nonneg.
Qed.

Lemma add_nonneg a b :
  (0 <=? a)%float = true -> (0 <=? b)%float = true -> (0 <=? a + b)%float = true.
Proof.
  rewrite !leb_zero, add_spec. apply SFadd_nonneg.
Qed.

Lemma fold_add_nonneg xs acc :
  (0 <=? acc)%float = true ->
  Forall (fun x => (0 <=? x)%float = true) xs ->
  (0 <=? fold_left PrimFloat.add xs acc)%float = true.
Proof.
  revert acc. induction xs as [|x xs IH]; simpl; intros acc Hacc Hxs; [assumption|].
  inversion Hxs; subst. apply IH; [|assumption]. now apply add_nonneg.
Qed.

Lemma sum_nonneg xs :
  Forall (fun x => (0 <=? x)%float = true) xs -> (0 <=? Py.sum xs)%float = true.
Proof. apply fold_add_nonneg. reflexivity. Qed.
End float_facts.

(* ===================================================================== *)
(** * Validation                                                           *)
(* ===================================================================== *)

(** Closes [exists es, check = inl es /\ In e es] once the check has been
    reduced to its list of errors. *)
Ltac error_listed :=
  eexists; (split; [reflexivity|]); simpl;
  rewrite ?in_app_iff; simpl; rewrite ?in_app_iff; auto 10 using in_map.

Section validation_facts.
Import Pydantic.

Lemma OrderItem_check_inr i it :
  OrderItem.check i = inr it ->
  i = OrderItem.supplied it /\
  (1 <= OrderItem.scoops it <= 5)%Z /\
  (0 <=? OrderItem.price it)%float = true.
Proof.
  destruct i as [[f|] [n|] [s|] [p|]];
    unfold OrderItem.check, le_int, ge_int, ge_float, constrain, required; simpl;
    try discriminate;
    destruct (Z.leb_spec 1 s); simpl; try discriminate;
    destruct (Z.leb_spec s 5); simpl; try discriminate.
  destruct (0 <=? p)%float eqn:Hp; simpl; try discriminate.
  intros [= <-]. unfold OrderItem.supplied. simpl. repeat split; auto.
Qed.

Lemma OrderItem_check_supplied it :
  (1 <= OrderItem.scoops it <= 5)%Z ->
  (0 <=? OrderItem.price it)%float = true ->
  OrderItem.check (OrderItem.supplied it) = inr it.
Proof.
  destruct it as [f n s p]. simpl. intros Hs Hp.
  unfold OrderItem.check, le_int, ge_int, ge_float, constrain, required. simpl.
  destruct (Z.leb_spec 1 s); [|lia]. destruct (Z.leb_spec s 5); [|lia].
  now rewrite Hp.
Qed.

(** The error pydantic reports for a scoop count outside 1..5. *)
Lemma OrderItem_check_scoops i s :
  OrderItem.in_scoops i = Some s -> (s < 1 \/ 5 < s)%Z ->
  exists es,
    OrderItem.check i = inl es /\
    In {| loc := [Key "scoops"];
          type := if (s <? 1)%Z then "greater_than_equal" else "less_than_equal" |} es.
Proof.
  destruct i as [f n sc p]. simpl. intros -> Hs.
  set (e := {| loc := [Key "scoops"];
               type := if (s <? 1)%Z then "greater_than_equal"
                       else "less_than_equal" |}).
  assert (Hsc : le_int "scoops" 5 (ge_int "scoops" 1 (required "scoops" (Some s)))
                = inl [e]).
  { unfold le_int, ge_int, constrain, required, error, e. simpl.
    destruct (Z.ltb_spec s 1), (Z.leb_spec 1 s), (Z.leb_spec s 5);
      try lia; reflexivity. }
  unfold OrderItem.check.
  cbn [OrderItem.in_flavor_id OrderItem.in_name OrderItem.in_scoops OrderItem.in_price].
  rewrite Hsc.
  destruct (required "flavor_id" f), (required "name" n),
    (ge_float "price" 0 (required "price" p));
    error_listed.
Qed.

Lemma check_items_inr n xs its :
  CreateOrder.check_items n xs = inr its ->
  Forall2 (fun x it => OrderItem.check x = inr it) xs its.
Proof.
  revert n its. induction xs as [|x xs IH]; simpl; intros n its.
  - intros [= <-]. constructor.
  - destruct (OrderItem.check x) as [e|it] eqn:Hx; [discriminate|].
    destruct (CreateOrder.check_items (S n) xs) as [e|its'] eqn:Hxs; [discriminate|].
    intros [= <-]. constructor; [assumption|]. eapply IH. eassumption.
Qed.

Lemma check_items_inl_at n xs i x es e :
  xs !! i = Some x -> OrderItem.check x = inl es -> In e es ->
  exists es',
    CreateOrder.check_items n xs = inl es' /\ In (under (Idx (n + i)) e) es'.
Proof.
  revert n i. induction xs as [|y xs IH]; intros n i Hi Hx He; [discriminate|].
  destruct i as [|i]; simpl in *.
  - injection Hi as ->. rewrite Hx.
    destruct (CreateOrder.check_items (S n) xs); eexists; (split; [reflexivity|]);
      apply in_or_app; left; rewrite Nat.add_0_r; now apply in_map.
  - destruct (IH (S n) i Hi Hx He) as (es' & -> & Hin).
    replace (n + S i) with (S n + i) by lia.
    destruct (OrderItem.check y); eexists; (split; [reflexivity|]);
      simpl; rewrite ?in_app_iff; auto.
Qed.

Lemma CreateOrder_check_inr body payload :
  CreateOrder.check body = inr payload ->
  exists xs,
    body = {| CreateOrder.in_customer_name := Some (CreateOrder.customer_name payload);
              CreateOrder.in_customer_phone := Some (CreateOrder.customer_phone payload);
              CreateOrder.in_items := Some xs;
              CreateOrder.in_notes := CreateOrder.notes payload |} /\
    CreateOrder.check_items 0 xs = inr (CreateOrder.items payload).
Proof.
  destruct body as [[n|] [ph|] [xs|] nt];
    unfold CreateOrder.check, CreateOrder.check_list, required, optional; simpl;
    try discriminate;
    try (destruct (CreateOrder.check_items 0 xs); discriminate).
  destruct (CreateOrder.check_items 0 xs) as [e|its] eqn:Hxs; [discriminate|].
  intros [= <-]. simpl. eauto.
Qed.

Lemma CreateOrder_check_item_error body xs i x es e :
  CreateOrder.in_items body = Some xs ->
  xs !! i = Some x -> OrderItem.check x = inl es -> In e es ->
  exists es',
    CreateOrder.check body = inl es' /\
    In (under (Key "items") (under (Idx i) e)) es'.
Proof.
  destruct body as [n ph its nt]. simpl. intros -> Hi Hx He.
  destruct (check_items_inl_at 0 xs i x es e Hi Hx He) as (es' & Hes' & Hin).
  unfold CreateOrder.check, CreateOrder.check_list. simpl. rewrite Hes'.
  destruct (required "customer_name" n), (required "customer_phone" ph);
    error_listed.
Qed.

Lemma Icecream_validate_Ok i f :
  Icecream.validate i = Ok f ->
  Icecream.in_name i = Some (Icecream.name f) /\
  Icecream.description f = Icecream.in_description i /\
  Icecream.in_price i = Some (Icecream.price f) /\
  (0 <=? Icecream.price f)%float = true /\
  Icecream.tags f = default [] (Icecream.in_tags i) /\
  Icecream.image f = Icecream.in_image i /\
  Icecream.is_available f = default true (Icecream.in_is_available i).
Proof.
  destruct i as [[n|] d [p|] tg im av];
    unfold Icecream.validate, Icecream.check, construct, ge_float, constrain,
      required, optional, defaulted; simpl; try discriminate.
  destruct (0 <=? p)%float eqn:Hp; simpl; try discriminate.
  intros [= <-]. simpl. repeat split; auto.
Qed.

Lemma Icecream_validate_negative i p :
  Icecream.in_price i = Some p -> (0 <=? p)%float = false ->
  exists es, Icecream.validate i = Raise (ValidationError es) /\
             In (error "price" "greater_than_equal") es.
Proof.
  destruct i as [n d pr tg im av]. simpl. intros -> Hp.
  unfold Icecream.validate, Icecream.check, construct, ge_float, constrain.
  simpl. rewrite Hp.
  destruct (required "name" n); error_listed.
Qed.

Lemma OrderItem_validate_Ok i it :
  OrderItem.validate i = Ok it -> OrderItem.check i = inr it.
Proof.
  unfold OrderItem.validate, construct.
  destruct (OrderItem.check i); [discriminate|]. now intros [= ->].
Qed.

Lemma OrderItem_validate_negative i p :
  OrderItem.in_price i = Some p -> (0 <=? p)%float = false ->
  exists es, OrderItem.validate i = Raise (ValidationError es) /\
             In (error "price" "greater_than_equal") es.
Proof.
  destruct i as [f n s pr]. simpl. intros -> Hp.
  unfold OrderItem.validate, OrderItem.check, construct.
  cbn [OrderItem.in_flavor_id OrderItem.in_name OrderItem.in_scoops OrderItem.in_price].
  assert (Hge : ge_float "price" 0 (required "price" (Some p))
                = inl [error "price" "greater_than_equal"]).
  { unfold ge_float, constrain, required. now rewrite Hp. }
  rewrite Hge.
  destruct (required "flavor_id" f), (required "name" n),
    (le_int "scoops" 5 (ge_int "scoops" 1 (required "scoops" s)));
    error_listed.
Qed.

Lemma Order_validate_Ok i o :
  Order.validate i = Ok o ->
  i = {| Order.in_customer_name := Some (Order.customer_name o);
         Order.in_customer_phone := Some (Order.customer_phone o);
         Order.in_items := Some (Order.items o);
         Order.in_total := Some (Order.total o);
         Order.in_notes := Order.notes o |} /\
  (0 <=? Order.total o)%float = true.
Proof.
  destruct i as [[n|] [ph|] [its|] [tot|] nt];
    unfold Order.validate, Order.check, construct, ge_float, constrain,
      required, optional; simpl; try discriminate;
    destruct (0 <=? tot)%float eqn:Htot; simpl; try discriminate.
  intros [= <-]. simpl. split; auto.
Qed.

Lemma Order_validate_supplied n ph its tot nt :
  (0 <=? tot)%float = true ->
  Order.validate
    {| Order.in_customer_name := Some n; Order.in_customer_phone := Some ph;
       Order.in_items := Some its; Order.in_total := Some tot;
       Order.in_notes := nt |}
  = Ok {| Order.customer_name := n; Order.customer_phone := ph;
          Order.items := its; Order.total := tot; Order.notes := nt |}.
Proof.
  intros Htot.
  unfold Order.validate, Order.check, construct, ge_float, constrain,
    required, optional. simpl. now rewrite Htot.
Qed.

Lemma Order_validate_negative i tot :
  Order.in_total i = Some tot -> (0 <=? tot)%float = false ->
  exists es, Order.validate i = Raise (ValidationError es) /\
             In (error "total" "greater_than_equal") es.
Proof.
  destruct i as [n ph its t nt]. simpl. intros -> Htot.
  unfold Order.validate, Order.check, construct.
  cbn [Order.in_customer_name Order.in_customer_phone Order.in_items
         Order.in_total Order.in_notes].
  assert (Hge : ge_float "total" 0 (required "total" (Some tot))
                = inl [error "total" "greater_than_equal"]).
  { unfold ge_float, constrain, required. now rewrite Htot. }
  rewrite Hge.
  destruct (required "customer_name" n), (required "customer_phone" ph),
    (required "items" its);
    error_listed.
Qed.

Lemma supplied_inj : forall its its' : list OrderItem.t,
  map OrderItem.supplied its = map OrderItem.supplied its' -> its = its'.
Proof.
  induction its as [|[f n s p] its IH]; intros [|[f' n' s' p'] its']; simpl;
    try discriminate; [reflexivity|].
  unfold OrderItem.supplied at 1 3. simpl. intros [= -> -> -> -> H].
  f_equal. now apply IH.
Qed.

Lemma check_items_supplied n xs its :
  CreateOrder.check_items n xs = inr its ->
  xs = map OrderItem.supplied its /\
  Forall (fun it => (1 <= OrderItem.scoops it <= 5)%Z /\
                    (0 <=? OrderItem.price it)%float = true) its.
Proof.
  intros H. apply check_items_inr in H.
  induction H as [|x it xs its Hx _ [IH1 IH2]]; [split; constructor|].
  apply OrderItem_check_inr in Hx as (-> & Hs & Hp).
  split; [simpl; now f_equal|]. constructor; auto.
Qed.

Lemma CreateOrder_validate_Ok body payload :
  CreateOrder.validate body = Ok payload ->
  body = {| CreateOrder.in_customer_name := Some (CreateOrder.customer_name payload);
            CreateOrder.in_customer_phone := Some (CreateOrder.customer_phone payload);
            CreateOrder.in_items :=
              Some (map OrderItem.supplied (CreateOrder.items payload));
            CreateOrder.in_notes := CreateOrder.notes payload |} /\
  Forall (fun it => (1 <= OrderItem.scoops it <= 5)%Z /\
                    (0 <=? OrderItem.price it)%float = true)
    (CreateOrder.items payload).
Proof.
  unfold CreateOrder.validate, construct.
  destruct (CreateOrder.check body) as [e|p] eqn:Hc; [discriminate|].
  intros [= ->]. apply CreateOrder_check_inr in Hc as (xs & -> & Hxs).
  apply check_items_supplied in Hxs as [-> Hall]. split; [reflexivity|assumption].
Qed.

End validation_facts.

(* ===================================================================== *)
(** * The store                                                            *)
(* ===================================================================== *)

Section store_facts.
Import Database.

Lemma find_all_insert_one d c data :
  find_all (snd (insert_one d c data)) c
  = find_all d c ++ [with_id {| Bson.binary := next_id d |} data].
Proof. unfold find_all, insert_one. simpl. now rewrite lookup_insert_eq. Qed.

Lemma find_all_insert_one_ne d c c' data :
  c <> c' -> find_all (snd (insert_one d c data)) c' = find_all d c'.
Proof.
  intros Hne. unfold find_all, insert_one. simpl.
  now rewrite lookup_insert_ne.
Qed.

Lemma fault_insert_one d c data : fault (snd (insert_one d c data)) = fault d.
Proof. reflexivity. Qed.

Lemma next_id_insert_one d c data :
  next_id (snd (insert_one d c data)) = N.succ (next_id d).
Proof. reflexivity. Qed.

Lemma create_document_reachable d c data :
  fault d = None ->
  create_document c data (Some d)
  = (Ok (Bson.str {| Bson.binary := next_id d |}), Some (snd (insert_one d c data))).
Proof. intros Hd. unfold create_document, reach. now rewrite Hd. Qed.

Lemma count_documents_reachable d c :
  fault d = None -> count_documents d c = Ok (Z.of_nat (length (find_all d c))).
Proof. intros Hd. unfold count_documents, reach. now rewrite Hd. Qed.

Lemma bind_apply {S A B} (m : M S A) (k : A -> M S B) (s : S) :
  (m ≫= k) s
  = match m s with
    | (Ok a, s') => k a s'
    | (Raise e, s') => (Raise e, s')
    end.
Proof. reflexivity. Qed.

End store_facts.

(* ===================================================================== *)
(** * [POST /api/orders]                                                   *)
(* ===================================================================== *)

Section order_facts.
Import Database.

(** [sum] over the generator is the left-to-right total. *)
Lemma sum_order_total items :
  Py.sum (map (fun item =>
                 (OrderItem.price item * float_of_int (OrderItem.scoops item))%float)
            items)
  = Spec.order_total items.
Proof.
  unfold Py.sum, Spec.order_total. generalize 0%float.
  induction items as [|it items IH]; simpl; intros acc; [reflexivity|apply IH].
Qed.

Lemma order_total_nonneg items :
  Forall item_valid items -> (0 <=? Spec.order_total items)%float = true.
Proof.
  intros Hall. rewrite <- sum_order_total. apply sum_nonneg.
  induction Hall as [|it items [Hs Hp] _ IH]; simpl; constructor; [|assumption].
  now apply mul_scoops_nonneg.
Qed.

Lemma create_order_endpoint_reachable payload d :
  Forall item_valid (CreateOrder.items payload) -> fault d = None ->
  create_order_endpoint payload (Some d)
  = (Ok {| OrderResponse.order_id := Bson.str {| Bson.binary := next_id d |};
           OrderResponse.total := Spec.order_total (CreateOrder.items payload) |},
     Some (snd (insert_one d "order" (Order.model_dump (order_of payload))))).
Proof.
  intros Hall Hd. unfold create_order_endpoint.
  rewrite sum_order_total.
  unfold mbind, M_bind, Py.bind, lift.
  rewrite Order_validate_supplied by now apply order_total_nonneg.
  fold (order_of payload).
  now rewrite create_document_reachable.
Qed.

Lemma post_api_orders_valid body payload d :
  CreateOrder.validate body = Ok payload -> fault d = None ->
  post_api_orders body (Some d)
  = (Ok (FastAPI.Http200
           {| OrderResponse.order_id := Bson.str {| Bson.binary := next_id d |};
              OrderResponse.total := Spec.order_total (CreateOrder.items payload) |}),
     Some (snd (insert_one d "order" (Order.model_dump (order_of payload))))).
Proof.
  intros Hv Hd. unfold post_api_orders, FastAPI.post. rewrite Hv.
  unfold mbind, M_bind, Py.bind.
  rewrite create_order_endpoint_reachable; [reflexivity| |assumption].
  now apply CreateOrder_validate_Ok in Hv as [_ Hall].
Qed.

Lemma post_api_orders_invalid body es db :
  CreateOrder.check body = inl es ->
  post_api_orders body db
  = (Ok (FastAPI.Http422 (map (Pydantic.under (Key "body")) es)), db).
Proof.
  intros Hc. unfold post_api_orders, FastAPI.post, CreateOrder.validate.
  now rewrite Hc.
Qed.

End order_facts.

(** C1. For every request body that passes validation, with a reachable
    store, [POST /api/orders] answers 200 with the total of the items:
    price times scoops, added up over the items of the request, in order.
    The order stored carries the same total. The total depends on the items
    alone: two valid bodies with the same items get the same total (the
    request has no total field). And an order of two scoops of Vanilla Bean
    at 3.5 gets the total 7.0. *)
Theorem order_total_is_sum_of_price_times_scoops
  (body : CreateOrder.input) (payload : CreateOrder.t) (d : Database.Database)
  (Hvalid : CreateOrder.validate body = Ok payload)
  (Hstore : Database.fault d = None) :
  (exists d',
      post_api_orders body (Some d)
      = (Ok (FastAPI.Http200
               {| OrderResponse.order_id :=
                    Bson.str {| Bson.binary := Database.next_id d |};
                  OrderResponse.total :=
                    Spec.order_total (CreateOrder.items payload) |}),
         Some d') /\
      Database.find_all d' "order"
      = Database.find_all d "order"
          ++ [Database.with_id {| Bson.binary := Database.next_id d |}
                (Order.model_dump (order_of payload))]) /\
  CreateOrder.in_items body
  = Some (map OrderItem.supplied (CreateOrder.items payload)) /\
  (forall body' payload',
      CreateOrder.validate body' = Ok payload' ->
      CreateOrder.in_items body' = CreateOrder.in_items body ->
      Spec.order_total (CreateOrder.items payload')
      = Spec.order_total (CreateOrder.items payload)) /\
  (forall customer_name customer_phone notes,
      exists d',
        post_api_orders
          {| CreateOrder.in_customer_name := Some customer_name;
             CreateOrder.in_customer_phone := Some customer_phone;
             CreateOrder.in_items :=
               Some [{| OrderItem.in_flavor_id := Some "1";
                        OrderItem.in_name := Some "Vanilla Bean";
                        OrderItem.in_scoops := Some 2%Z;
                        OrderItem.in_price := Some 3.5%float |}];
             CreateOrder.in_notes := notes |}
          (Some d)
        = (Ok (FastAPI.Http200
                 {| OrderResponse.order_id :=
                      Bson.str {| Bson.binary := Database.next_id d |};
                    OrderResponse.total := 7%float |}),
           Some d')).
Proof.
  pose proof (CreateOrder_validate_Ok _ _ Hvalid) as [Hbody _].
  split; [|split; [|split]].
  - eexists. split; [now apply post_api_orders_valid|].
    apply find_all_insert_one.
  - rewrite Hbody. reflexivity.
  - intros body' payload' Hvalid' Hitems.
    apply CreateOrder_validate_Ok in Hvalid' as [Hbody' _].
    rewrite Hbody', Hbody in Hitems. simpl in Hitems.
    injection Hitems as Hitems. apply supplied_inj in Hitems. now rewrite Hitems.
  - intros customer_name customer_phone notes. eexists.
    now rewrite (post_api_orders_valid _
                   {| CreateOrder.customer_name := customer_name;
                      CreateOrder.customer_phone := customer_phone;
                      CreateOrder.items :=
                        [{| OrderItem.flavor_id := "1";
                            OrderItem.name := "Vanilla Bean";
                            OrderItem.scoops := 2;
                            OrderItem.price := 3.5 |}];
                      CreateOrder.notes := notes |}).
Qed.

Lemma order_total_is_sum_of_price_times_scoops_witness :
  exists d',
    post_api_orders
      {| CreateOrder.in_customer_name := Some "Ada";
         CreateOrder.in_customer_phone := Some "555-0100";
         CreateOrder.in_items :=
           Some [{| OrderItem.in_flavor_id := Some "1";
                    OrderItem.in_name := Some "Vanilla Bean";
                    OrderItem.in_scoops := Some 2%Z;
                    OrderItem.in_price := Some 3.5%float |};
                 {| OrderItem.in_flavor_id := Some "2";
                    OrderItem.in_name := Some "Dark Chocolate";
                    OrderItem.in_scoops := Some 1%Z;
                    OrderItem.in_price := Some 3.75%float |}];
         CreateOrder.in_notes := None |}
      (Some empty_store)
    = (Ok (FastAPI.Http200
             {| OrderResponse.order_id := "000000000000000000000000";
                OrderResponse.total := 10.75%float |}),
       Some d').
Proof.
  destruct (order_total_is_sum_of_price_times_scoops
              {| CreateOrder.in_customer_name := Some "Ada";
                 CreateOrder.in_customer_phone := Some "555-0100";
                 CreateOrder.in_items :=
                   Some [{| OrderItem.in_flavor_id := Some "1";
                            OrderItem.in_name := Some "Vanilla Bean";
                            OrderItem.in_scoops := Some 2%Z;
                            OrderItem.in_price := Some 3.5%float |};
                         {| OrderItem.in_flavor_id := Some "2";
                            OrderItem.in_name := Some "Dark Chocolate";
                            OrderItem.in_scoops := Some 1%Z;
                            OrderItem.in_price := Some 3.75%float |}];
                 CreateOrder.in_notes := None |}
              {| CreateOrder.customer_name := "Ada";
                 CreateOrder.customer_phone := "555-0100";
                 CreateOrder.items :=
                   [{| OrderItem.flavor_id := "1"; OrderItem.name := "Vanilla Bean";
                       OrderItem.scoops := 2; OrderItem.price := 3.5 |};
                    {| OrderItem.flavor_id := "2"; OrderItem.name := "Dark Chocolate";
                       OrderItem.scoops := 1; OrderItem.price := 3.75 |}];
                 CreateOrder.notes := None |}
              empty_store eq_refl eq_refl) as [[d' [H _]] _].
  exists d'. exact H.
Defined.

(** C3, as the claim states it, fails: a body whose [items] is the empty
    list passes validation, and the order is stored and answered with 200. *)
Lemma empty_items_accepted :
  CreateOrder.in_items
    {| CreateOrder.in_customer_name := Some "Ada";
       CreateOrder.in_customer_phone := Some "555-0100";
       CreateOrder.in_items := Some [];
       CreateOrder.in_notes := None |}
  = Some [] /\
  CreateOrder.validate
    {| CreateOrder.in_customer_name := Some "Ada";
       CreateOrder.in_customer_phone := Some "555-0100";
       CreateOrder.in_items := Some [];
       CreateOrder.in_notes := None |}
  = Ok {| CreateOrder.customer_name := "Ada";
          CreateOrder.customer_phone := "555-0100";
          CreateOrder.items := [];
          CreateOrder.notes := None |} /\
  fst (post_api_orders
         {| CreateOrder.in_customer_name := Some "Ada";
            CreateOrder.in_customer_phone := Some "555-0100";
            CreateOrder.in_items := Some [];
            CreateOrder.in_notes := None |}
         (Some empty_store))
  = Ok (FastAPI.Http200
          {| OrderResponse.order_id := "000000000000000000000000";
             OrderResponse.total := 0%float |}).
Proof. repeat split; reflexivity. Qed.

(** C3, amended. Neither [CreateOrder] nor [Order] bounds the length of
    [items]: a body with the two required strings and an empty list of items
    passes validation; with a reachable store the order is stored with no
    items and total 0, and the answer is 200 with total 0. *)
Theorem empty_items_order_is_stored
  (customer_name customer_phone : string) (notes : option string)
  (d : Database.Database) (Hstore : Database.fault d = None) :
  CreateOrder.validate
    {| CreateOrder.in_customer_name := Some customer_name;
       CreateOrder.in_customer_phone := Some customer_phone;
       CreateOrder.in_items := Some [];
       CreateOrder.in_notes := notes |}
  = Ok {| CreateOrder.customer_name := customer_name;
          CreateOrder.customer_phone := customer_phone;
          CreateOrder.items := [];
          CreateOrder.notes := notes |} /\
  Order.validate
    {| Order.in_customer_name := Some customer_name;
       Order.in_customer_phone := Some customer_phone;
       Order.in_items := Some [];
       Order.in_total := Some 0%float;
       Order.in_notes := notes |}
  = Ok {| Order.customer_name := customer_name;
          Order.customer_phone := customer_phone;
          Order.items := [];
          Order.total := 0;
          Order.notes := notes |} /\
  exists d',
    post_api_orders
      {| CreateOrder.in_customer_name := Some customer_name;
         CreateOrder.in_customer_phone := Some customer_phone;
         CreateOrder.in_items := Some [];
         CreateOrder.in_notes := notes |}
      (Some d)
    = (Ok (FastAPI.Http200
             {| OrderResponse.order_id :=
                  Bson.str {| Bson.binary := Database.next_id d |};
                OrderResponse.total := 0%float |}),
       Some d') /\
    Database.find_all d' "order"
    = Database.find_all d "order"
        ++ [[("_id", VObjectId {| Bson.binary := Database.next_id d |});
             ("customer_name", VStr customer_name);
             ("customer_phone", VStr customer_phone);
             ("items", VList []);
             ("total", VFloat 0);
             ("notes", Order.dump_optional notes)]].
Proof.
  split; [reflexivity|]. split; [reflexivity|].
  eexists. split.
  - now rewrite (post_api_orders_valid _
                   {| CreateOrder.customer_name := customer_name;
                      CreateOrder.customer_phone := customer_phone;
                      CreateOrder.items := [];
                      CreateOrder.notes := notes |}).
  - now rewrite find_all_insert_one.
Qed.

Lemma empty_items_order_is_stored_witness :
  exists d',
    post_api_orders
      {| CreateOrder.in_customer_name := Some "Ada";
         CreateOrder.in_customer_phone := Some "555-0100";
         CreateOrder.in_items := Some [];
         CreateOrder.in_notes := Some "no cone" |}
      (Some empty_store)
    = (Ok (FastAPI.Http200
             {| OrderResponse.order_id := "000000000000000000000000";
                OrderResponse.total := 0%float |}),
       Some d') /\
    Database.find_all d' "order"
    = [[("_id", VObjectId {| Bson.binary := 0 |});
        ("customer_name", VStr "Ada");
        ("customer_phone", VStr "555-0100");
        ("items", VList []);
        ("total", VFloat 0);
        ("notes", VStr "no cone")]].
Proof.
  exact (proj2 (proj2 (empty_items_order_is_stored
                         "Ada" "555-0100" (Some "no cone") empty_store eq_refl))).
Defined.

(** C7. An item whose scoop count is below 1 or above 5 fails validation,
    and a request holding such an item at position [i] is answered 422 with
    the error located at [body.items[i].scoops]; the store is left as it
    was, whatever its state. An item with a scoop count from 1 to 5, the
    bounds 1 and 5 included, and a non-negative price passes. *)
Theorem scoops_outside_1_to_5_rejected :
  (forall body xs i x s db,
      CreateOrder.in_items body = Some xs ->
      xs !! i = Some x ->
      OrderItem.in_scoops x = Some s ->
      (s < 1 \/ 5 < s)%Z ->
      (exists es, OrderItem.validate x = Raise (ValidationError es)) /\
      exists detail,
        post_api_orders body db = (Ok (FastAPI.Http422 detail), db) /\
        In {| loc := [Key "body"; Key "items"; Idx i; Key "scoops"];
              type := if (s <? 1)%Z then "greater_than_equal"
                      else "less_than_equal" |} detail) /\
  (forall flavor_id name s price,
      (1 <= s <= 5)%Z -> (0 <=? price)%float = true ->
      OrderItem.validate
        {| OrderItem.in_flavor_id := Some flavor_id; OrderItem.in_name := Some name;
           OrderItem.in_scoops := Some s; OrderItem.in_price := Some price |}
      = Ok {| OrderItem.flavor_id := flavor_id; OrderItem.name := name;
              OrderItem.scoops := s; OrderItem.price := price |}) /\
  (forall flavor_id name price,
      (0 <=? price)%float = true ->
      OrderItem.validate
        {| OrderItem.in_flavor_id := Some flavor_id; OrderItem.in_name := Some name;
           OrderItem.in_scoops := Some 1%Z; OrderItem.in_price := Some price |}
      = Ok {| OrderItem.flavor_id := flavor_id; OrderItem.name := name;
              OrderItem.scoops := 1; OrderItem.price := price |} /\
      OrderItem.validate
        {| OrderItem.in_flavor_id := Some flavor_id; OrderItem.in_name := Some name;
           OrderItem.in_scoops := Some 5%Z; OrderItem.in_price := Some price |}
      = Ok {| OrderItem.flavor_id := flavor_id; OrderItem.name := name;
              OrderItem.scoops := 5; OrderItem.price := price |}).
Proof.
  assert (Hacc : forall flavor_id name s price,
             (1 <= s <= 5)%Z -> (0 <=? price)%float = true ->
             OrderItem.validate
               {| OrderItem.in_flavor_id := Some flavor_id;
                  OrderItem.in_name := Some name;
                  OrderItem.in_scoops := Some s;
                  OrderItem.in_price := Some price |}
             = Ok {| OrderItem.flavor_id := flavor_id; OrderItem.name := name;
                     OrderItem.scoops := s; OrderItem.price := price |}).
  { intros f n s p Hs Hp. unfold OrderItem.validate.
    pose proof (OrderItem_check_supplied
                  {| OrderItem.flavor_id := f; OrderItem.name := n;
                     OrderItem.scoops := s; OrderItem.price := p |} Hs Hp) as H.
    unfold OrderItem.supplied in H. simpl in H. now rewrite H. }
  split; [|split].
  - intros body xs i x s db Hitems Hi Hs Hout.
    destruct (OrderItem_check_scoops x s Hs Hout) as (es & Hx & He).
    split.
    + exists es. unfold OrderItem.validate. now rewrite Hx.
    + destruct (CreateOrder_check_item_error body xs i x es _ Hitems Hi Hx He)
        as (es' & Hbody & He').
      exists (map (Pydantic.under (Key "body")) es').
      split; [apply post_api_orders_invalid; exact Hbody|].
      apply (in_map (Pydantic.under (Key "body"))) in He'. exact He'.
  - exact Hacc.
  - intros f n p Hp. split; apply Hacc; (lia || assumption).
Qed.

Lemma scoops_outside_1_to_5_rejected_witness :
  (exists detail,
      post_api_orders
        {| CreateOrder.in_customer_name := Some "Ada";
           CreateOrder.in_customer_phone := Some "555-0100";
           CreateOrder.in_items :=
             Some [{| OrderItem.in_flavor_id := Some "1";
                      OrderItem.in_name := Some "Vanilla Bean";
                      OrderItem.in_scoops := Some 2%Z;
                      OrderItem.in_price := Some 3.5%float |};
                   {| OrderItem.in_flavor_id := Some "2";
                      OrderItem.in_name := Some "Dark Chocolate";
                      OrderItem.in_scoops := Some 6%Z;
                      OrderItem.in_price := Some 3.75%float |}];
           CreateOrder.in_notes := None |}
        (Some empty_store)
      = (Ok (FastAPI.Http422 detail), Some empty_store) /\
      In {| loc := [Key "body"; Key "items"; Idx 1; Key "scoops"];
            type := "less_than_equal" |} detail) /\
  OrderItem.validate
    {| OrderItem.in_flavor_id := Some "1"; OrderItem.in_name := Some "Vanilla Bean";
       OrderItem.in_scoops := Some 5%Z; OrderItem.in_price := Some 3.5%float |}
  = Ok {| OrderItem.flavor_id := "1"; OrderItem.name := "Vanilla Bean";
          OrderItem.scoops := 5; OrderItem.price := 3.5 |}.
Proof.
  split.
  - apply (proj1 scoops_outside_1_to_5_rejected
             {| CreateOrder.in_customer_name := Some "Ada";
                CreateOrder.in_customer_phone := Some "555-0100";
                CreateOrder.in_items :=
                  Some [{| OrderItem.in_flavor_id := Some "1";
                           OrderItem.in_name := Some "Vanilla Bean";
                           OrderItem.in_scoops := Some 2%Z;
                           OrderItem.in_price := Some 3.5%float |};
                        {| OrderItem.in_flavor_id := Some "2";
                           OrderItem.in_name := Some "Dark Chocolate";
                           OrderItem.in_scoops := Some 6%Z;
                           OrderItem.in_price := Some 3.75%float |}];
                CreateOrder.in_notes := None |}
             _ 1 _ 6%Z (Some empty_store) eq_refl eq_refl eq_refl).
    right. reflexivity.
  - apply (proj1 (proj2 scoops_outside_1_to_5_rejected) "1" "Vanilla Bean" 5%Z 3.5%float).
    + split; discriminate.
    + reflexivity.
Defined.

(** C8. A flavor that passes validation has [is_available] true when the
    field was omitted and [tags] empty when the field was omitted, and a
    flavor given only its name and a non-negative price is built with these
    defaults. The money fields are bounded below by zero: an [Icecream], an
    [OrderItem] or an [Order] that passes validation has a price (a total)
    with [0 <= value], and an input whose price (total) fails [0 <= value]
    is rejected with the error [greater_than_equal] at that field. *)
Theorem flavor_defaults_and_money_not_negative :
  (forall i f,
      Icecream.validate i = Ok f ->
      (Icecream.in_is_available i = None -> Icecream.is_available f = true) /\
      (Icecream.in_tags i = None -> Icecream.tags f = []) /\
      (0 <=? Icecream.price f)%float = true) /\
  (forall name price,
      (0 <=? price)%float = true ->
      Icecream.validate
        {| Icecream.in_name := Some name; Icecream.in_description := None;
           Icecream.in_price := Some price; Icecream.in_tags := None;
           Icecream.in_image := None; Icecream.in_is_available := None |}
      = Ok {| Icecream.name := name; Icecream.description := None;
              Icecream.price := price; Icecream.tags := [];
              Icecream.image := None; Icecream.is_available := true |}) /\
  (forall i it,
      OrderItem.validate i = Ok it -> (0 <=? OrderItem.price it)%float = true) /\
  (forall i o,
      Order.validate i = Ok o -> (0 <=? Order.total o)%float = true) /\
  (forall i price,
      Icecream.in_price i = Some price -> (0 <=? price)%float = false ->
      exists es, Icecream.validate i = Raise (ValidationError es) /\
                 In {| loc := [Key "price"]; type := "greater_than_equal" |} es) /\
  (forall i price,
      OrderItem.in_price i = Some price -> (0 <=? price)%float = false ->
      exists es, OrderItem.validate i = Raise (ValidationError es) /\
                 In {| loc := [Key "price"]; type := "greater_than_equal" |} es) /\
  (forall i total,
      Order.in_total i = Some total -> (0 <=? total)%float = false ->
      exists es, Order.validate i = Raise (ValidationError es) /\
                 In {| loc := [Key "total"]; type := "greater_than_equal" |} es).
Proof.
  repeat apply conj.
  - intros i f Hv.
    apply Icecream_validate_Ok in Hv as (_ & _ & _ & Hp & Htags & _ & Hav).
    repeat split; [intros Hnone; now rewrite Hav, Hnone
                  |intros Hnone; now rewrite Htags, Hnone
                  |exact Hp].
  - intros name price Hp.
    unfold Icecream.validate, Icecream.check, Pydantic.construct,
      Pydantic.ge_float, Pydantic.constrain. simpl. now rewrite Hp.
  - intros i it Hv. apply OrderItem_validate_Ok in Hv.
    now apply OrderItem_check_inr in Hv as (_ & _ & Hp).
  - intros i o Hv. now apply Order_validate_Ok in Hv as [_ Htot].
  - exact Icecream_validate_negative.
  - exact OrderItem_validate_negative.
  - exact Order_validate_negative.
Qed.

Lemma flavor_defaults_and_money_not_negative_witness :
  (Icecream.is_available
     {| Icecream.name := "Pistachio"; Icecream.description := None;
        Icecream.price := 4.25; Icecream.tags := [];
        Icecream.image := None; Icecream.is_available := true |} = true /\
   Icecream.tags
     {| Icecream.name := "Pistachio"; Icecream.description := None;
        Icecream.price := 4.25; Icecream.tags := [];
        Icecream.image := None; Icecream.is_available := true |} = [] /\
   (0 <=? 4.25)%float = true) /\
  (exists es,
      Order.validate
        {| Order.in_customer_name := Some "Ada";
           Order.in_customer_phone := Some "555-0100";
           Order.in_items := Some [];
           Order.in_total := Some (-1)%float;
           Order.in_notes := None |}
      = Raise (ValidationError es) /\
      In {| loc := [Key "total"]; type := "greater_than_equal" |} es).
Proof.
  split.
  - destruct (proj1 flavor_defaults_and_money_not_negative
                {| Icecream.in_name := Some "Pistachio";
                   Icecream.in_description := None;
                   Icecream.in_price := Some 4.25%float;
                   Icecream.in_tags := None;
                   Icecream.in_image := None;
                   Icecream.in_is_available := None |}
                {| Icecream.name := "Pistachio"; Icecream.description := None;
                   Icecream.price := 4.25; Icecream.tags := [];
                   Icecream.image := None; Icecream.is_available := true |}
                eq_refl) as (Hav & Htags & Hp).
    exact (conj (Hav eq_refl) (conj (Htags eq_refl) Hp)).
  - exact (proj2 (proj2 (proj2 (proj2 (proj2 (proj2
             flavor_defaults_and_money_not_negative)))))
             {| Order.in_customer_name := Some "Ada";
                Order.in_customer_phone := Some "555-0100";
                Order.in_items := Some [];
                Order.in_total := Some (-1)%float;
                Order.in_notes := None |}
             (-1)%float eq_refl eq_refl).
Defined.

(** C4, at the inputs where the code departs from it. [seed_flavors]
    tests the truth of the handle ([if db]), not its presence, as
    [test_database] does ([db is not None]). With a store handle the test
    raises before any document is counted or inserted, whatever the store
    holds: no count is answered, the first time or the second. With no
    handle [existing] is 0 and the first insert raises. So no state of the
    store gets an answer from seeding, and none is changed by it. *)
Theorem seed_flavors_fails_on_the_truth_test :
  (forall d,
      seed_flavors (Some d)
      = (Raise (Exception Database.truth_error), Some d)) /\
  seed_flavors None = (Raise (StoreUnavailable "Database not available"), None) /\
  (forall db, exists e, seed_flavors db = (Raise e, db)) /\
  (seed_flavors;; seed_flavors) (Some empty_store)
  = (Raise (Exception Database.truth_error), Some empty_store).
Proof.
  assert (Hsome : forall d,
             seed_flavors (Some d)
             = (Raise (Exception Database.truth_error), Some d))
    by reflexivity.
  repeat split; try reflexivity.
  intros [d|]; eexists; [apply Hsome|reflexivity].
Qed.

(** C10, at the input where the code departs from it. The four documents
    of [seed] are the ones the claim names, in its order, each available
    and priced 3.5 or 3.75. But seeding a reachable store whose [icecream]
    collection is empty raises at the truth test of the handle ([if db]),
    the same defect as for C4, and the collection is as empty afterwards
    as it was before. *)
Theorem seed_flavors_inserts_nothing :
  map (fun doc => dict_get doc "name") seed
  = [Some (VStr "Vanilla Bean"); Some (VStr "Dark Chocolate");
     Some (VStr "Strawberry Swirl"); Some (VStr "Mint Choco Chip")] /\
  map (fun doc => dict_get doc "is_available") seed
  = [Some (VBool true); Some (VBool true); Some (VBool true); Some (VBool true)] /\
  map (fun doc => dict_get doc "price") seed
  = [Some (VFloat 3.5); Some (VFloat 3.75); Some (VFloat 3.75); Some (VFloat 3.75)] /\
  Database.fault empty_store = None /\
  Database.find_all empty_store "icecream" = [] /\
  exists db',
    seed_flavors (Some empty_store)
    = (Raise (Exception Database.truth_error), Some db') /\
    Database.find_all db' "icecream" = [].
Proof.
  repeat split. exists empty_store. split; reflexivity.
Qed.

(* ===================================================================== *)
(** * [GET /test]                                                          *)
(* ===================================================================== *)

Section test_database_facts.

Lemma slice_to_length n s : String.length (slice_to n s) <= n.
Proof.
  unfold slice_to. revert s. induction n as [|n IH]; intros [|c s]; simpl; try lia.
  specialize (IH s). lia.
Qed.

(** The environment is read once, for its truth value. *)
Lemma test_database_environ environ1 environ2 db :
  truthy_str (environ1 !! "DATABASE_URL") = truthy_str (environ2 !! "DATABASE_URL") ->
  test_database environ1 db = test_database environ2 db.
Proof.
  intros Henv. unfold test_database. now rewrite Henv.
Qed.

End test_database_facts.

(** C6. [GET /test] answers for every state of the store and of the
    environment: no store, a store whose attributes cannot be read, a store
    that cannot be reached, a working store. The answer has the six fields;
    [collections] lists at most 10 names; [database] is a text that tells
    the state, and where it quotes an error it quotes at most the first 50
    characters of the error's text. *)
Theorem test_database_never_raises (environ : gmap string string) (db : Database.handle) :
  exists response names text,
    test_database environ db = Ok response /\
    keys response
    = ["backend"; "database"; "database_url"; "database_name";
       "connection_status"; "collections"] /\
    dict_get response "collections" = Some (VList (map VStr names)) /\
    length names <= 10 /\
    dict_get response "database" = Some (VStr text) /\
    match db with
    | None => text = "⚠️  Available but not initialized"
    | Some d =>
        match Database.hasattr (Database.name d), Database.list_collection_names d with
        | Raise e, _ =>
            text = "❌ Error: " +:+ slice_to 50 (str_exn e) /\
            String.length (slice_to 50 (str_exn e)) <= 50
        | Ok _, Raise e =>
            text = "⚠️  Connected but Error: " +:+ slice_to 50 (str_exn e) /\
            String.length (slice_to 50 (str_exn e)) <= 50
        | Ok _, Ok _ => text = "✅ Connected & Working"
        end
    end.
Proof.
  unfold test_database.
  generalize (truthy_str (environ !! "DATABASE_URL")) as url. intros url.
  destruct db as [[nm fl cs nid]|].
  - unfold Database.list_collection_names, Database.reach. simpl Database.fault.
    simpl Database.collections. simpl Database.name.
    generalize (map fst (map_to_list cs)) as collections. intros collections.
    assert (Hten : length (firstn 10 collections) <= 10)
      by (rewrite length_take; lia).
    destruct nm as [|nm|msg].
    + destruct fl as [msg'|]; simpl.
      * eexists _, [], _. repeat split; try apply slice_to_length. simpl. lia.
      * eexists _, (firstn 10 collections), _. now repeat split.
    + destruct fl as [msg'|]; simpl.
      * eexists _, [], _. repeat split; try apply slice_to_length. simpl. lia.
      * eexists _, (firstn 10 collections), _. now repeat split.
    + destruct fl as [msg'|]; simpl;
        eexists _, [], _; repeat split; try apply slice_to_length; simpl; lia.
  - eexists. exists []. eexists. simpl. repeat split; try reflexivity. simpl. lia.
Qed.

(** C9, as the claim states it, fails: with the variable set in both runs,
    once to the empty string and once to a connection string, the
    [database_url] fields differ. *)
Lemma database_url_differs_for_empty_value :
  environ_with "" !! "DATABASE_URL" = Some "" /\
  environ_with "mongodb://localhost:27017"
    !! "DATABASE_URL" = Some "mongodb://localhost:27017" /\
  field "database_url"
    (test_database (environ_with "") (Some empty_store))
  = Some (VStr "❌ Not Set") /\
  field "database_url"
    (test_database (environ_with "mongodb://localhost:27017") (Some empty_store))
  = Some (VStr "✅ Set").
Proof. repeat split; reflexivity. Qed.

(** C9, amended. Two runs that differ only in the value of [DATABASE_URL],
    the value not empty in either, and in the store handle made from it,
    which is there in both runs or in neither, get the same [database_url]
    from [GET /test]: [✅ Set] when there is a handle and null when there is
    none. The field tells whether the variable holds a non-empty value, not
    the value: a variable set to the empty string is reported like an unset
    one. *)
Theorem database_url_reports_presence_only
  (environ1 environ2 : gmap string string) (db1 db2 : Database.handle)
  (value1 value2 : string)
  (Hset1 : environ1 !! "DATABASE_URL" = Some value1)
  (Hset2 : environ2 !! "DATABASE_URL" = Some value2)
  (Hvalue1 : value1 <> "")
  (Hvalue2 : value2 <> "")
  (Hhandle : db1 = None <-> db2 = None) :
  field "database_url" (test_database environ1 db1)
  = field "database_url" (test_database environ2 db2) /\
  field "database_url" (test_database environ1 db1)
  = Some (match db1 with
          | Some _ => VStr "✅ Set"
          | None => VNone
          end) /\
  (forall environ : gmap string string,
      environ !! "DATABASE_URL" = Some "" \/ environ !! "DATABASE_URL" = None ->
      field "database_url" (test_database environ db1)
      = Some (match db1 with
              | Some _ => VStr "❌ Not Set"
              | None => VNone
              end)).
Proof.
  assert (Htruthy : forall (environ : gmap string string) v,
             environ !! "DATABASE_URL" = Some v -> v <> "" ->
             truthy_str (environ !! "DATABASE_URL") = true).
  { intros environ v -> Hv. simpl. now destruct (String.eqb_spec v ""). }
  assert (Hfield : forall (environ : gmap string string) db,
             field "database_url" (test_database environ db)
             = Some (match db with
                     | Some _ =>
                         VStr (if truthy_str (environ !! "DATABASE_URL")
                               then "✅ Set" else "❌ Not Set")
                     | None => VNone
                     end)).
  { intros environ db. unfold test_database.
    generalize (truthy_str (environ !! "DATABASE_URL")) as url. intros url.
    destruct db as [[nm fl cs nid]|]; [|reflexivity].
    unfold Database.list_collection_names, Database.reach.
    simpl Database.fault. simpl Database.collections. simpl Database.name.
    generalize (map fst (map_to_list cs)) as collections. intros collections.
    destruct nm as [|nm|msg], fl as [msg'|]; reflexivity. }
  split; [|split].
  - rewrite !Hfield.
    rewrite (Htruthy _ _ Hset1 Hvalue1), (Htruthy _ _ Hset2 Hvalue2).
    destruct db1 as [d1|], db2 as [d2|]; try reflexivity.
    + destruct Hhandle as [_ H]. discriminate (H eq_refl).
    + destruct Hhandle as [H _]. discriminate (H eq_refl).
  - rewrite Hfield, (Htruthy _ _ Hset1 Hvalue1). reflexivity.
  - intros environ Hunset. rewrite Hfield.
    now destruct Hunset as [-> | ->].
Qed.

Lemma database_url_reports_presence_only_witness :
  field "database_url"
    (test_database (environ_with "mongodb://db-a.internal:27017/shop")
       (Some {| Database.name := Database.AttrValue "shop";
                Database.fault := Some "db-a.internal:27017: connection refused";
                Database.collections := ∅;
                Database.next_id := 0 |}))
  = field "database_url"
      (test_database (environ_with "mongodb://db-b.internal:27017/shop")
         (Some {| Database.name := Database.AttrValue "shop";
                  Database.fault := Some "db-b.internal:27017: connection refused";
                  Database.collections := ∅;
                  Database.next_id := 0 |})) /\
  field "database_url"
    (test_database (environ_with "mongodb://db-a.internal:27017/shop")
       (Some {| Database.name := Database.AttrValue "shop";
                Database.fault := Some "db-a.internal:27017: connection refused";
                Database.collections := ∅;
                Database.next_id := 0 |}))
  = Some (VStr "✅ Set").
Proof.
  destruct (database_url_reports_presence_only
              (environ_with "mongodb://db-a.internal:27017/shop")
              (environ_with "mongodb://db-b.internal:27017/shop")
              (Some {| Database.name := Database.AttrValue "shop";
                       Database.fault :=
                         Some "db-a.internal:27017: connection refused";
                       Database.collections := ∅;
                       Database.next_id := 0 |})
              (Some {| Database.name := Database.AttrValue "shop";
                       Database.fault :=
                         Some "db-b.internal:27017: connection refused";
                       Database.collections := ∅;
                       Database.next_id := 0 |})
              "mongodb://db-a.internal:27017/shop"
              "mongodb://db-b.internal:27017/shop"
              eq_refl eq_refl
              ltac:(discriminate) ltac:(discriminate)
              ltac:(split; discriminate)) as (Hsame & Hset & _).
  exact (conj Hsame Hset).
Defined.

(* ===================================================================== *)
(** * More on [ObjectIdEncoder.encode]                                     *)
(* ===================================================================== *)

Section encode_more.
Import ObjectIdEncoder.

Lemma existsb_false_Forall {A} (p : A -> bool) (l : list A) :
  existsb p l = false <-> Forall (fun a => p a = false) l.
Proof.
  induction l as [|a l IH]; simpl; [split; [constructor|reflexivity]|].
  rewrite orb_false_iff, IH. split.
  - intros [Ha Hl]. now constructor.
  - intros H. inversion H; subst. now split.
Qed.

Lemma encode_item_free v :
  Spec.has_ObjectId v = false ->
  (Spec.has_ObjectId v = false -> Spec.has_ObjectId (encode v) = false) ->
  Spec.has_ObjectId (encode_item encode v) = false.
Proof. destruct v; simpl; intros Hv IH; try reflexivity; try discriminate; auto. Qed.

Lemma encode_free x :
  Spec.has_ObjectId x = false -> Spec.has_ObjectId (encode x) = false.
Proof.
  induction x as [| | | | | |l IH|d IH] using value_nested_ind;
    try reflexivity; try discriminate.
  - simpl. rewrite !existsb_false_Forall. intros Hl.
    induction IH as [|v l Hv _ IHl]; [constructor|].
    inversion Hl; subst. simpl. constructor; auto.
  - rewrite encode_dict. simpl. rewrite !existsb_false_Forall. intros Hd.
    apply (assign_all_Forall _ (fun w => Spec.has_ObjectId w = false));
      [constructor|].
    induction IH as [|[k v] d Hv _ IHd]; [constructor|].
    inversion Hd; subst. constructor; [|auto].
    simpl in *. now apply encode_item_free.
Qed.

Lemma normalize_free x :
  Spec.has_ObjectId x = false -> Spec.normalize x = x.
Proof.
  induction x as [| | | | | |l IH|d IH] using value_nested_ind;
    try reflexivity; try discriminate; simpl; rewrite existsb_false_Forall;
    intros H; f_equal.
  - induction IH as [|v l Hv _ IHl]; [reflexivity|].
    inversion H; subst. simpl. f_equal; auto.
  - induction IH as [|[k v] d Hv _ IHd]; [reflexivity|].
    inversion H; subst. simpl in *. f_equal; [f_equal|]; auto.
Qed.

Lemma dict_get_map_values {V} (f : V -> V) (d : list (string * V)) k :
  dict_get (map (fun kv => (fst kv, f (snd kv))) d) k = option_map f (dict_get d k).
Proof.
  induction d as [|[k' v] d IH]; simpl; [reflexivity|].
  now destruct (String.eqb k' k).
Qed.

End encode_more.

(** X3. A value that holds no identifier comes out of [encode] holding
    none; and when its maps have distinct keys, as those of a Python dict
    do, it comes out unchanged. *)
Theorem encode_leaves_plain_values_alone
  (x : value) (Hfree : Spec.has_ObjectId x = false) :
  Spec.has_ObjectId (ObjectIdEncoder.encode x) = false /\
  (Spec.keyed_ids x = true -> ObjectIdEncoder.encode x = x).
Proof.
  split; [now apply encode_free|].
  intros Hkeyed. rewrite encode_normalize by assumption. now apply normalize_free.
Qed.

Lemma encode_leaves_plain_values_alone_witness :
  ObjectIdEncoder.encode
    (VList [VDict [("name", VStr "Vanilla Bean"); ("price", VFloat 3.5);
                   ("tags", VList [VStr "classic"; VStr "creamy"]);
                   ("is_available", VBool true); ("image", VNone)]])
  = VList [VDict [("name", VStr "Vanilla Bean"); ("price", VFloat 3.5);
                  ("tags", VList [VStr "classic"; VStr "creamy"]);
                  ("is_available", VBool true); ("image", VNone)]].
Proof.
  exact (proj2 (encode_leaves_plain_values_alone
                  (VList [VDict [("name", VStr "Vanilla Bean"); ("price", VFloat 3.5);
                                 ("tags", VList [VStr "classic"; VStr "creamy"]);
                                 ("is_available", VBool true); ("image", VNone)]])
                  eq_refl) eq_refl).
Defined.

(** X4. Encoding a document with distinct keys keeps its keys, in order,
    and what is read under a key afterwards is what was there before,
    encoded: the string of an identifier, the encoding of any other value,
    nothing where there was nothing. *)
Theorem encode_document_lookup
  (d : document) (Hkeys : Spec.distinct (keys d) = true) :
  exists d',
    ObjectIdEncoder.encode (VDict d) = VDict d' /\
    keys d' = keys d /\
    length d' = length d /\
    forall k,
      dict_get d' k
      = match dict_get d k with
        | Some (VObjectId o) => Some (VStr (Bson.str o))
        | Some v => Some (ObjectIdEncoder.encode v)
        | None => None
        end.
Proof.
  exists (map (fun kv => (fst kv, ObjectIdEncoder.encode_item ObjectIdEncoder.encode (snd kv))) d).
  split; [|split; [|split]].
  - rewrite encode_dict, assign_all_dict by now apply distinct_NoDup. reflexivity.
  - unfold keys. rewrite map_map. reflexivity.
  - apply length_map.
  - intros k. rewrite dict_get_map_values.
    destruct (dict_get d k) as [[]|]; reflexivity.
Qed.

Lemma encode_document_lookup_witness :
  exists d',
    ObjectIdEncoder.encode
      (VDict [("_id", VObjectId {| Bson.binary := 255 |});
              ("name", VStr "Mint Choco Chip")])
    = VDict d' /\
    dict_get d' "_id" = Some (VStr "0000000000000000000000ff") /\
    dict_get d' "name" = Some (VStr "Mint Choco Chip") /\
    dict_get d' "price" = None.
Proof.
  destruct (encode_document_lookup
              [("_id", VObjectId {| Bson.binary := 255 |});
               ("name", VStr "Mint Choco Chip")] eq_refl)
    as (d' & Henc & _ & _ & Hget).
  exists d'. split; [exact Henc|].
  split; [exact (Hget "_id")|]. split; [exact (Hget "name")|exact (Hget "price")].
Defined.

(* ===================================================================== *)
(** * More on the handlers that use the store                              *)
(* ===================================================================== *)

Section handler_more.
Import Database Pydantic.

Lemma get_flavors_reachable d :
  fault d = None ->
  get_flavors (Some d)
  = (Ok (ObjectIdEncoder.encode (VList (map VDict (find_all d "icecream")))), Some d).
Proof.
  intros Hd. unfold get_flavors. rewrite bind_apply.
  unfold get_documents, reach. now rewrite Hd.
Qed.

Lemma keyed_documents docs :
  Forall (fun doc => Spec.keyed_ids (VDict doc) = true) docs ->
  Spec.keyed_ids (VList (map VDict docs)) = true.
Proof.
  intros H. simpl. induction H as [|doc docs Hdoc _ IH]; [reflexivity|].
  simpl in *. now rewrite Hdoc, IH.
Qed.

(** From an empty list of errors, spelled as appended and relocated
    pieces, to a contradiction with a piece known not to be empty. *)
Ltac no_errors_absurd :=
  let H := fresh "Hnil" in
  intros H; simpl in H;
  repeat match goal with
    | H : _ ++ _ = [] |- _ => apply app_eq_nil in H as [? ?]
    | H : map _ _ = [] |- _ => apply map_eq_nil in H
    end;
  subst; congruence.

Lemma told_required {A} k (x : option A) : told (required k x).
Proof. destruct x; simpl; [exact I|discriminate]. Qed.

Lemma told_constrain {A} k ty (holds : A -> bool) x :
  told x -> told (constrain k ty holds x).
Proof.
  destruct x as [es|a]; simpl; [auto|].
  intros _. destruct (holds a); simpl; [exact I|discriminate].
Qed.

Lemma told_OrderItem_check i : told (OrderItem.check i).
Proof.
  unfold OrderItem.check.
  pose proof (told_required "flavor_id" (OrderItem.in_flavor_id i)) as Hf.
  pose proof (told_required "name" (OrderItem.in_name i)) as Hn.
  pose proof (told_constrain "scoops" "less_than_equal" (fun z => (z <=? 5)%Z) _
                (told_constrain "scoops" "greater_than_equal" (fun z => (1 <=? z)%Z) _
                   (told_required "scoops" (OrderItem.in_scoops i)))) as Hs.
  pose proof (told_constrain "price" "greater_than_equal"
                (fun f => (0 <=? f)%float) _
                (told_required "price" (OrderItem.in_price i))) as Hp.
  unfold le_int, ge_int, ge_float.
  destruct (required "flavor_id" _) as [ef|f], (required "name" _) as [en|n],
    (constrain "scoops" "less_than_equal" _ _) as [es|s],
    (constrain "price" "greater_than_equal" _ _) as [ep|p];
    simpl in *; try exact I; no_errors_absurd.
Qed.

Lemma told_check_items n xs : told (CreateOrder.check_items n xs).
Proof.
  revert n. induction xs as [|x xs IH]; intros n; simpl; [exact I|].
  pose proof (told_OrderItem_check x) as Hx. specialize (IH (S n)).
  destruct (OrderItem.check x) as [ex|it],
    (CreateOrder.check_items (S n) xs) as [exs|its];
    simpl in *; try exact I; no_errors_absurd.
Qed.

Lemma told_CreateOrder_check body : told (CreateOrder.check body).
Proof.
  unfold CreateOrder.check, CreateOrder.check_list.
  pose proof (told_required "customer_name" (CreateOrder.in_customer_name body)) as Hn.
  pose proof (told_required "customer_phone" (CreateOrder.in_customer_phone body)) as Hp.
  pose proof (told_required "items" (CreateOrder.in_items body)) as Hi.
  destruct (required "customer_name" _) as [en|n],
    (required "customer_phone" _) as [ep|ph],
    (required "items" _) as [ei|xs]; simpl in *;
    try (pose proof (told_check_items 0 xs) as Hxs;
         destruct (CreateOrder.check_items 0 xs) as [exs|its]); simpl in *;
    try exact I; no_errors_absurd.
Qed.

End handler_more.

(** X5. [GET /api/flavors] over a reachable store only reads: the store is
    left as it was, and the answer is a list with one entry for each
    document of the [icecream] collection. Where the documents hold their
    identifiers directly under keys, the answer is the stored list with
    every identifier replaced by its string, and holds no identifier. *)
Theorem get_flavors_reads_the_collection
  (d : Database.Database) (Hstore : Database.fault d = None) :
  exists flavors,
    get_flavors (Some d) = (Ok (VList flavors), Some d) /\
    length flavors = length (Database.find_all d "icecream") /\
    (Forall (fun doc => Spec.keyed_ids (VDict doc) = true)
       (Database.find_all d "icecream") ->
     VList flavors
     = Spec.normalize (VList (map VDict (Database.find_all d "icecream"))) /\
     Spec.has_ObjectId (VList flavors) = false).
Proof.
  exists (map ObjectIdEncoder.encode (map VDict (Database.find_all d "icecream"))).
  split; [now apply get_flavors_reachable|].
  split; [now rewrite !length_map|].
  intros Hkeyed. apply keyed_documents in Hkeyed.
  change (VList (map ObjectIdEncoder.encode
                   (map VDict (Database.find_all d "icecream"))))
    with (ObjectIdEncoder.encode (VList (map VDict (Database.find_all d "icecream")))).
  rewrite encode_normalize by assumption.
  split; [reflexivity|apply normalize_no_ObjectId].
Qed.

Lemma get_flavors_reads_the_collection_witness :
  get_flavors (Some two_flavor_store)
  = (Ok (VList [VDict [("_id", VStr "00000000000000000000001a");
                       ("name", VStr "Vanilla Bean");
                       ("price", VFloat 3.5);
                       ("tags", VList [VStr "classic"; VStr "creamy"])];
                VDict [("_id", VStr "00000000000000000000001b");
                       ("name", VStr "Dark Chocolate");
                       ("price", VFloat 3.75);
                       ("tags", VList [VStr "chocolate"; VStr "rich"])]]),
     Some two_flavor_store).
Proof.
  destruct (get_flavors_reads_the_collection two_flavor_store eq_refl)
    as (flavors & Hget & _ & Hnormalized).
  destruct (Hnormalized ltac:(vm_compute; repeat constructor)) as [Heq _].
  rewrite Hget, Heq. reflexivity.
Defined.

(** X6. A valid order against a reachable store adds exactly one document
    to the [order] collection and touches no other collection. The
    [order_id] of the answer is the string of the identity stored under
    [_id] of that document, whose [total], [customer_name] and [items] are
    those of the request; the store stays reachable. *)
Theorem create_order_stores_one_document
  (body : CreateOrder.input) (payload : CreateOrder.t) (d : Database.Database)
  (Hvalid : CreateOrder.validate body = Ok payload)
  (Hstore : Database.fault d = None) :
  exists d' oid stored_order,
    post_api_orders body (Some d)
    = (Ok (FastAPI.Http200
             {| OrderResponse.order_id := Bson.str oid;
                OrderResponse.total := Spec.order_total (CreateOrder.items payload) |}),
       Some d') /\
    Database.find_all d' "order" = Database.find_all d "order" ++ [stored_order] /\
    Database.count_documents d' "order"
    = Ok (Z.of_nat (length (Database.find_all d "order")) + 1)%Z /\
    (forall c, c <> "order" -> Database.find_all d' c = Database.find_all d c) /\
    Database.fault d' = None /\
    dict_get stored_order "_id" = Some (VObjectId oid) /\
    dict_get stored_order "total"
    = Some (VFloat (Spec.order_total (CreateOrder.items payload))) /\
    dict_get stored_order "customer_name"
    = Some (VStr (CreateOrder.customer_name payload)) /\
    dict_get stored_order "items"
    = Some (VList (map (fun it => VDict (OrderItem.model_dump it))
                     (CreateOrder.items payload))).
Proof.
  exists (snd (Database.insert_one d "order" (Order.model_dump (order_of payload)))),
    {| Bson.binary := Database.next_id d |},
    (Database.with_id {| Bson.binary := Database.next_id d |}
       (Order.model_dump (order_of payload))).
  split; [now apply post_api_orders_valid|].
  split; [apply find_all_insert_one|].
  split.
  - rewrite count_documents_reachable by assumption.
    rewrite find_all_insert_one, length_app. simpl. f_equal. lia.
  - split; [intros c Hc; apply find_all_insert_one_ne; congruence|].
    repeat split; assumption || reflexivity.
Qed.

Lemma create_order_stores_one_document_witness :
  exists d' oid stored_order,
    post_api_orders
      {| CreateOrder.in_customer_name := Some "Ada";
         CreateOrder.in_customer_phone := Some "555-0100";
         CreateOrder.in_items :=
           Some [{| OrderItem.in_flavor_id := Some "1";
                    OrderItem.in_name := Some "Vanilla Bean";
                    OrderItem.in_scoops := Some 3%Z;
                    OrderItem.in_price := Some 3.5%float |}];
         CreateOrder.in_notes := None |}
      (Some empty_store)
    = (Ok (FastAPI.Http200
             {| OrderResponse.order_id := Bson.str oid;
                OrderResponse.total := 10.5%float |}),
       Some d') /\
    Database.find_all d' "order" = [stored_order] /\
    dict_get stored_order "_id" = Some (VObjectId oid).
Proof.
  destruct (create_order_stores_one_document
              {| CreateOrder.in_customer_name := Some "Ada";
                 CreateOrder.in_customer_phone := Some "555-0100";
                 CreateOrder.in_items :=
                   Some [{| OrderItem.in_flavor_id := Some "1";
                            OrderItem.in_name := Some "Vanilla Bean";
                            OrderItem.in_scoops := Some 3%Z;
                            OrderItem.in_price := Some 3.5%float |}];
                 CreateOrder.in_notes := None |}
              {| CreateOrder.customer_name := "Ada";
                 CreateOrder.customer_phone := "555-0100";
                 CreateOrder.items :=
                   [{| OrderItem.flavor_id := "1"; OrderItem.name := "Vanilla Bean";
                       OrderItem.scoops := 3; OrderItem.price := 3.5 |}];
                 CreateOrder.notes := None |}
              empty_store eq_refl eq_refl)
    as (d' & oid & stored_order & Hpost & Hfound & _ & _ & _ & Hid & _).
  exists d', oid, stored_order. exact (conj Hpost (conj Hfound Hid)).
Defined.

Section invalid_bodies.
Import Pydantic.

Lemma under_items_located (es : list error_details) :
  Forall (fun err =>
            exists f rest,
              loc err = Key f :: rest /\
              In f ["customer_name"; "customer_phone"; "items"])
    (map (under (Key "items")) es).
Proof.
  induction es as [|e es IH]; simpl; constructor; [|exact IH].
  exists "items", (loc e). simpl. auto.
Qed.

Lemma CreateOrder_check_located body es :
  CreateOrder.check body = inl es ->
  Forall (fun err =>
            exists f rest,
              loc err = Key f :: rest /\
              In f ["customer_name"; "customer_phone"; "items"]) es.
Proof.
  pose proof (under_items_located) as Hitems.
  destruct body as [[n|] [ph|] [xs|] nt];
    unfold CreateOrder.check, CreateOrder.check_list, required, optional; simpl;
    try destruct (CreateOrder.check_items 0 xs) as [exs|its]; simpl;
    intros [= <-];
    repeat match goal with
      | |- Forall _ (_ ++ _) => apply Forall_app; split
      | |- Forall _ [] => constructor
      | |- Forall _ (map (under _) _) => apply Hitems
      | |- Forall _ (error ?f _ :: _) =>
          constructor; [exists f, []; simpl; auto 6|]
      end.
Qed.

End invalid_bodies.

(** X7. A body that fails validation never reaches the endpoint: the
    route does not answer 200, and the store is left as it was, whatever
    its state (none, unreachable, working). The validation error lists at
    least one error, and every error is located at one of the fields
    [customer_name], [customer_phone], [items]. *)
Theorem invalid_order_never_reaches_the_endpoint
  (body : CreateOrder.input) (e : exn) (db : Database.handle)
  (Hinvalid : CreateOrder.validate body = Raise e) :
  snd (post_api_orders body db) = db /\
  (forall content, fst (post_api_orders body db) <> Ok (FastAPI.Http200 content)) /\
  exists detail,
    e = ValidationError detail /\
    detail <> [] /\
    Forall (fun err =>
              exists f rest,
                loc err = Key f :: rest /\
                In f ["customer_name"; "customer_phone"; "items"])
      detail.
Proof.
  unfold CreateOrder.validate, Pydantic.construct in Hinvalid.
  pose proof (told_CreateOrder_check body) as Htold.
  destruct (CreateOrder.check body) as [es|p] eqn:Hcheck; [|discriminate].
  rewrite (post_api_orders_invalid body es db Hcheck).
  split; [reflexivity|]. split; [discriminate|].
  exists es. split; [congruence|]. split; [exact Htold|].
  exact (CreateOrder_check_located body es Hcheck).
Qed.

Lemma invalid_order_never_reaches_the_endpoint_witness :
  snd (post_api_orders
         {| CreateOrder.in_customer_name := Some "Ada";
            CreateOrder.in_customer_phone := None;
            CreateOrder.in_items :=
              Some [{| OrderItem.in_flavor_id := Some "1";
                       OrderItem.in_name := None;
                       OrderItem.in_scoops := Some 2%Z;
                       OrderItem.in_price := Some (-1)%float |}];
            CreateOrder.in_notes := None |}
         (Some two_flavor_store))
  = Some two_flavor_store.
Proof.
  exact (proj1 (invalid_order_never_reaches_the_endpoint
                  {| CreateOrder.in_customer_name := Some "Ada";
                     CreateOrder.in_customer_phone := None;
                     CreateOrder.in_items :=
                       Some [{| OrderItem.in_flavor_id := Some "1";
                                OrderItem.in_name := None;
                                OrderItem.in_scoops := Some 2%Z;
                                OrderItem.in_price := Some (-1)%float |}];
                     CreateOrder.in_notes := None |}
                  _ (Some two_flavor_store) eq_refl)).
Defined.

(** X8. A body that passes validation is never answered 422 and never
    fails in the endpoint's own [Order(...)]: over a reachable store it is
    stored and answered 200, and otherwise the only failure is the one the
    gateway raises (no store, or a store that cannot be reached), which
    the endpoint lets through with the store left as it was. *)
Theorem valid_order_fails_only_on_the_store
  (body : CreateOrder.input) (payload : CreateOrder.t) (db : Database.handle)
  (Hvalid : CreateOrder.validate body = Ok payload) :
  match db with
  | Some d =>
      match Database.fault d with
      | None =>
          exists order_id d',
            post_api_orders body db
            = (Ok (FastAPI.Http200
                     {| OrderResponse.order_id := order_id;
                        OrderResponse.total :=
                          Spec.order_total (CreateOrder.items payload) |}),
               Some d')
      | Some msg => post_api_orders body db = (Raise (StoreUnavailable msg), db)
      end
  | None => exists msg, post_api_orders body db = (Raise (StoreUnavailable msg), db)
  end.
Proof.
  pose proof (CreateOrder_validate_Ok _ _ Hvalid) as [_ Hitems].
  assert (Hrun : forall db,
             post_api_orders body db
             = match Database.create_document "order"
                       (Order.model_dump (order_of payload)) db with
               | (Ok oid, db') =>
                   (Ok (FastAPI.Http200
                          {| OrderResponse.order_id := oid;
                             OrderResponse.total :=
                               Spec.order_total (CreateOrder.items payload) |}),
                    db')
               | (Raise e, db') => (Raise e, db')
               end).
  { intros db0. unfold post_api_orders, FastAPI.post. rewrite Hvalid.
    rewrite bind_apply. unfold create_order_endpoint.
    rewrite sum_order_total, bind_apply. unfold lift.
    rewrite Order_validate_supplied by now apply order_total_nonneg.
    fold (order_of payload). rewrite bind_apply.
    destruct (Database.create_document _ _ db0) as [[oid|e] db']; reflexivity. }
  rewrite Hrun. destruct db as [d|]; [|eexists; reflexivity].
  unfold Database.create_document, Database.reach.
  destruct (Database.fault d) as [msg|]; [reflexivity|].
  eexists _, _. reflexivity.
Qed.

Lemma valid_order_fails_only_on_the_store_witness :
  post_api_orders
    {| CreateOrder.in_customer_name := Some "Ada";
       CreateOrder.in_customer_phone := Some "555-0100";
       CreateOrder.in_items :=
         Some [{| OrderItem.in_flavor_id := Some "1";
                  OrderItem.in_name := Some "Vanilla Bean";
                  OrderItem.in_scoops := Some 2%Z;
                  OrderItem.in_price := Some 3.5%float |}];
       CreateOrder.in_notes := None |}
    (Some {| Database.name := Database.AttrValue "shop";
             Database.fault := Some "connection refused";
             Database.collections := ∅;
             Database.next_id := 0 |})
  = (Raise (StoreUnavailable "connection refused"),
     Some {| Database.name := Database.AttrValue "shop";
             Database.fault := Some "connection refused";
             Database.collections := ∅;
             Database.next_id := 0 |}).
Proof.
  exact (valid_order_fails_only_on_the_store
           {| CreateOrder.in_customer_name := Some "Ada";
              CreateOrder.in_customer_phone := Some "555-0100";
              CreateOrder.in_items :=
                Some [{| OrderItem.in_flavor_id := Some "1";
                         OrderItem.in_name := Some "Vanilla Bean";
                         OrderItem.in_scoops := Some 2%Z;
                         OrderItem.in_price := Some 3.5%float |}];
              CreateOrder.in_notes := None |}
           {| CreateOrder.customer_name := "Ada";
              CreateOrder.customer_phone := "555-0100";
              CreateOrder.items :=
                [{| OrderItem.flavor_id := "1"; OrderItem.name := "Vanilla Bean";
                    OrderItem.scoops := 2; OrderItem.price := 3.5 |}];
              CreateOrder.notes := None |}
           (Some {| Database.name := Database.AttrValue "shop";
                    Database.fault := Some "connection refused";
                    Database.collections := ∅;
                    Database.next_id := 0 |})
           eq_refl).
Defined.

(** X10. What [GET /test] reports besides [database]. [backend] is always
    [✅ Running]. [connection_status] reads [Connected] as soon as there is
    a store handle whose name could be read, also when the store then
    cannot be reached, and [Not Connected] otherwise. [database_name] is
    the handle's name, [✅ Connected] when it has none, and null when there
    is no handle or reading the name failed. [collections] holds the first
    10 names the store lists, all of them when it lists at most 10, and
    nothing when there is no handle or a call failed. *)
Theorem test_database_reports_connection
  (environ : gmap string string) (db : Database.handle) :
  field "backend" (test_database environ db) = Some (VStr "✅ Running") /\
  field "connection_status" (test_database environ db)
  = Some (VStr match db with
               | Some d =>
                   match Database.hasattr (Database.name d) with
                   | Ok _ => "Connected"
                   | Raise _ => "Not Connected"
                   end
               | None => "Not Connected"
               end) /\
  field "database_name" (test_database environ db)
  = Some match db with
         | Some d =>
             match Database.name d with
             | Database.AttrValue n => VStr n
             | Database.AttrMissing => VStr "✅ Connected"
             | Database.AttrRaises _ => VNone
             end
         | None => VNone
         end /\
  field "collections" (test_database environ db)
  = Some (VList match db with
                | Some d =>
                    match Database.hasattr (Database.name d),
                          Database.list_collection_names d with
                    | Ok _, Ok names => map VStr (firstn 10 names)
                    | _, _ => []
                    end
                | None => []
                end) /\
  (forall d names,
      db = Some d ->
      Database.list_collection_names d = Ok names ->
      length names <= 10 ->
      (forall msg, Database.name d <> Database.AttrRaises msg) ->
      field "collections" (test_database environ db) = Some (VList (map VStr names))).
Proof.
  assert (Hfields :
            field "backend" (test_database environ db) = Some (VStr "✅ Running") /\
            field "connection_status" (test_database environ db)
            = Some (VStr match db with
                         | Some d =>
                             match Database.hasattr (Database.name d) with
                             | Ok _ => "Connected"
                             | Raise _ => "Not Connected"
                             end
                         | None => "Not Connected"
                         end) /\
            field "database_name" (test_database environ db)
            = Some match db with
                   | Some d =>
                       match Database.name d with
                       | Database.AttrValue n => VStr n
                       | Database.AttrMissing => VStr "✅ Connected"
                       | Database.AttrRaises _ => VNone
                       end
                   | None => VNone
                   end /\
            field "collections" (test_database environ db)
            = Some (VList match db with
                          | Some d =>
                              match Database.hasattr (Database.name d),
                                    Database.list_collection_names d with
                              | Ok _, Ok names => map VStr (firstn 10 names)
                              | _, _ => []
                              end
                          | None => []
                          end)).
  { unfold test_database.
    generalize (truthy_str (environ !! "DATABASE_URL")) as url. intros url.
    destruct db as [[nm fl cs nid]|]; [|repeat split; reflexivity].
    unfold Database.list_collection_names, Database.reach.
    simpl Database.fault. simpl Database.collections. simpl Database.name.
    generalize (map fst (map_to_list cs)) as collections. intros collections.
    destruct nm as [|nm|msg], fl as [msg'|]; repeat split; reflexivity. }
  destruct Hfields as (Hb & Hc & Hn & Hl).
  repeat split; try assumption.
  intros d names -> Hnames Hlen Hname. rewrite Hl, Hnames.
  rewrite firstn_all2 by assumption.
  destruct (Database.name d) as [|n|msg]; simpl; try reflexivity.
  now destruct (Hname msg).
Qed.

Lemma test_database_reports_connection_witness :
  field "collections"
    (test_database (environ_with "mongodb://localhost:27017")
       (Some {| Database.name := Database.AttrValue "shop";
                Database.fault := None;
                Database.collections := {["icecream" := []]};
                Database.next_id := 0 |}))
  = Some (VList [VStr "icecream"]).
Proof.
  exact (proj2 (proj2 (proj2 (proj2
           (test_database_reports_connection
              (environ_with "mongodb://localhost:27017")
              (Some {| Database.name := Database.AttrValue "shop";
                       Database.fault := None;
                       Database.collections := {["icecream" := []]};
                       Database.next_id := 0 |})))))
           _ ["icecream"] eq_refl eq_refl
           ltac:(simpl; lia) ltac:(discriminate)).
Defined.

(* ===================================================================== *)
(** * More on the schemas                                                  *)
(* ===================================================================== *)

Section schemas_more.
Import Pydantic.

Lemma age_constraints a :
  le_int "age" 120 (ge_int "age" 0 (inr a))
  = if (a <? 0)%Z then inl [error "age" "greater_than_equal"]
    else if (120 <? a)%Z then inl [error "age" "less_than_equal"]
    else inr a.
Proof.
  unfold le_int, ge_int, constrain.
  destruct (Z.ltb_spec a 0), (Z.leb_spec 0 a); try lia; [reflexivity|].
  destruct (Z.ltb_spec 120 a), (Z.leb_spec a 120); try lia; reflexivity.
Qed.

Lemma check_items_all_valid n its :
  Forall item_valid its ->
  CreateOrder.check_items n (map OrderItem.supplied its) = inr its.
Proof.
  intros Hall. revert n. induction Hall as [|it its [Hs Hp] _ IH]; intros n; simpl.
  - reflexivity.
  - rewrite OrderItem_check_supplied by assumption. now rewrite IH.
Qed.

End schemas_more.

(** X11. [User] accepts an input exactly when [name], [email] and
    [address] are supplied and [age] is either left out or from 0 to 120,
    bounds included; the instance then carries the supplied values, with
    [is_active] true unless it was supplied. An age below 0 or above 120 is
    rejected with the error of the bound it breaks, located at [age]. *)
Theorem user_accepted_exactly_when :
  (forall i u,
      User.validate i = Ok u <->
      User.in_name i = Some (User.name u) /\
      User.in_email i = Some (User.email u) /\
      User.in_address i = Some (User.address u) /\
      User.in_age i = User.age u /\
      match User.age u with
      | Some a => (0 <= a <= 120)%Z
      | None => True
      end /\
      User.is_active u = default true (User.in_is_active i)) /\
  (forall i a,
      User.in_age i = Some a -> (a < 0 \/ 120 < a)%Z ->
      exists es,
        User.validate i = Raise (ValidationError es) /\
        In {| loc := [Key "age"];
              type := if (a <? 0)%Z then "greater_than_equal"
                      else "less_than_equal" |} es).
Proof.
  split.
  - intros [n e ad ag act] u.
    unfold User.validate, User.check, Pydantic.construct, Pydantic.optional_with,
      Pydantic.required, Pydantic.defaulted.
    cbn [User.in_name User.in_email User.in_address User.in_age User.in_is_active].
    split.
    + destruct n as [n|], e as [e|], ad as [ad|], ag as [a|];
        try rewrite age_constraints;
        try destruct (Z.ltb_spec a 0); try destruct (Z.ltb_spec 120 a);
        simpl; try discriminate; intros [= <-]; simpl;
        repeat split; try reflexivity; lia.
    + destruct u as [un ue uad uag uact].
      cbn [User.name User.email User.address User.age User.is_active].
      intros (-> & -> & -> & -> & Hage & ->).
      destruct uag as [a|]; [|reflexivity].
      rewrite age_constraints.
      destruct (Z.ltb_spec a 0); [lia|]. destruct (Z.ltb_spec 120 a); [lia|].
      reflexivity.
  - intros [n e ad ag act] a. simpl. intros -> Hout.
    unfold User.validate, User.check, Pydantic.construct, Pydantic.optional_with.
    cbn [User.in_name User.in_email User.in_address User.in_age User.in_is_active].
    rewrite age_constraints.
    destruct (Z.ltb_spec a 0); [|destruct (Z.ltb_spec 120 a); [|lia]];
      destruct (Pydantic.required "name" n), (Pydantic.required "email" e),
        (Pydantic.required "address" ad);
      error_listed.
Qed.

Lemma user_accepted_exactly_when_witness :
  User.validate
    {| User.in_name := Some "Ada"; User.in_email := Some "ada@example.org";
       User.in_address := Some "1 Main St"; User.in_age := Some 120%Z;
       User.in_is_active := None |}
  = Ok {| User.name := "Ada"; User.email := "ada@example.org";
          User.address := "1 Main St"; User.age := Some 120%Z;
          User.is_active := true |} /\
  exists es,
    User.validate
      {| User.in_name := Some "Ada"; User.in_email := Some "ada@example.org";
         User.in_address := Some "1 Main St"; User.in_age := Some 121%Z;
         User.in_is_active := None |}
    = Raise (ValidationError es) /\
    In {| loc := [Key "age"]; type := "less_than_equal" |} es.
Proof.
  split.
  - apply (proj1 user_accepted_exactly_when). simpl.
    repeat split; reflexivity || discriminate.
  - apply (proj2 user_accepted_exactly_when
             {| User.in_name := Some "Ada"; User.in_email := Some "ada@example.org";
                User.in_address := Some "1 Main St"; User.in_age := Some 121%Z;
                User.in_is_active := None |} 121%Z eq_refl).
    right. reflexivity.
Defined.

(** X12. [Product] accepts an input exactly when [title], [category] and
    [price] are supplied and [0 <= price]; the instance then carries the
    supplied values, with [in_stock] true unless it was supplied. Leaving
    out [title], [price] or [category] is rejected with the error [missing]
    at the field that was left out. *)
Theorem product_accepted_exactly_when :
  (forall i p,
      Product.validate i = Ok p <->
      Product.in_title i = Some (Product.title p) /\
      Product.description p = Product.in_description i /\
      Product.in_price i = Some (Product.price p) /\
      (0 <=? Product.price p)%float = true /\
      Product.in_category i = Some (Product.category p) /\
      Product.in_stock p = default true (Product.in_in_stock i)) /\
  (forall i,
      Product.in_title i = None ->
      exists es,
        Product.validate i = Raise (ValidationError es) /\
        In {| loc := [Key "title"]; type := "missing" |} es) /\
  (forall i,
      Product.in_price i = None ->
      exists es,
        Product.validate i = Raise (ValidationError es) /\
        In {| loc := [Key "price"]; type := "missing" |} es) /\
  (forall i,
      Product.in_category i = None ->
      exists es,
        Product.validate i = Raise (ValidationError es) /\
        In {| loc := [Key "category"]; type := "missing" |} es).
Proof.
  split; [|split; [|split]].
  - intros [ti d pr c st] p.
    unfold Product.validate, Product.check, Pydantic.construct, Pydantic.ge_float,
      Pydantic.constrain, Pydantic.required, Pydantic.optional, Pydantic.defaulted.
    cbn [Product.in_title Product.in_description Product.in_price
           Product.in_category Product.in_in_stock].
    split.
    + destruct ti as [ti|], pr as [pr|], c as [c|];
        try destruct (0 <=? pr)%float eqn:Hp;
        simpl; try discriminate; intros [= <-]; simpl; repeat split; auto.
    + destruct p as [pti pd ppr pc pst].
      cbn [Product.title Product.description Product.price Product.category
             Product.in_stock].
      intros (-> & -> & -> & Hp & -> & ->). now rewrite Hp.
  - intros [ti d pr c st]. simpl. intros ->.
    unfold Product.validate, Product.check, Pydantic.construct.
    cbn [Product.in_title Product.in_description Product.in_price
           Product.in_category Product.in_in_stock].
    destruct (Pydantic.ge_float "price" 0 (Pydantic.required "price" pr)),
      (Pydantic.required "category" c); error_listed.
  - intros [ti d pr c st]. simpl. intros ->.
    unfold Product.validate, Product.check, Pydantic.construct.
    cbn [Product.in_title Product.in_description Product.in_price
           Product.in_category Product.in_in_stock].
    destruct (Pydantic.required "title" ti), (Pydantic.required "category" c);
      error_listed.
  - intros [ti d pr c st]. simpl. intros ->.
    unfold Product.validate, Product.check, Pydantic.construct.
    cbn [Product.in_title Product.in_description Product.in_price
           Product.in_category Product.in_in_stock].
    destruct (Pydantic.required "title" ti),
      (Pydantic.ge_float "price" 0 (Pydantic.required "price" pr));
      error_listed.
Qed.

Lemma product_accepted_exactly_when_witness :
  Product.validate
    {| Product.in_title := Some "Waffle cone"; Product.in_description := None;
       Product.in_price := Some 0.5%float; Product.in_category := Some "cones";
       Product.in_in_stock := None |}
  = Ok {| Product.title := "Waffle cone"; Product.description := None;
          Product.price := 0.5; Product.category := "cones";
          Product.in_stock := true |} /\
  exists es,
    Product.validate
      {| Product.in_title := Some "Waffle cone"; Product.in_description := None;
         Product.in_price := Some 0.5%float; Product.in_category := None;
         Product.in_in_stock := None |}
    = Raise (ValidationError es) /\
    In {| loc := [Key "category"]; type := "missing" |} es.
Proof.
  split.
  - apply (proj1 product_accepted_exactly_when). simpl. repeat split; reflexivity.
  - exact (proj2 (proj2 (proj2 product_accepted_exactly_when))
             {| Product.in_title := Some "Waffle cone";
                Product.in_description := None;
                Product.in_price := Some 0.5%float; Product.in_category := None;
                Product.in_in_stock := None |} eq_refl).
Defined.

(** X13. The body of [POST /api/orders] passes validation exactly when
    [customer_name], [customer_phone] and [items] are supplied and every
    item supplies its four fields with scoops from 1 to 5 and
    [0 <= price]; the payload then carries the supplied values, item by
    item, in order. A body that leaves [items] out is rejected with
    [missing] at [items], while a body whose [items] is the empty list
    passes. *)
Theorem order_body_accepted_exactly_when :
  (forall body payload,
      CreateOrder.validate body = Ok payload <->
      body = {| CreateOrder.in_customer_name :=
                  Some (CreateOrder.customer_name payload);
                CreateOrder.in_customer_phone :=
                  Some (CreateOrder.customer_phone payload);
                CreateOrder.in_items :=
                  Some (map OrderItem.supplied (CreateOrder.items payload));
                CreateOrder.in_notes := CreateOrder.notes payload |} /\
      Forall item_valid (CreateOrder.items payload)) /\
  (forall body,
      CreateOrder.in_items body = None ->
      exists es,
        CreateOrder.validate body = Raise (ValidationError es) /\
        In {| loc := [Key "items"]; type := "missing" |} es) /\
  (forall customer_name customer_phone notes,
      CreateOrder.validate
        {| CreateOrder.in_customer_name := Some customer_name;
           CreateOrder.in_customer_phone := Some customer_phone;
           CreateOrder.in_items := Some [];
           CreateOrder.in_notes := notes |}
      = Ok {| CreateOrder.customer_name := customer_name;
              CreateOrder.customer_phone := customer_phone;
              CreateOrder.items := [];
              CreateOrder.notes := notes |}).
Proof.
  split; [|split].
  - intros body payload. split; [apply CreateOrder_validate_Ok|].
    intros [-> Hall]. destruct payload as [n ph its nt]. simpl in *.
    unfold CreateOrder.validate, CreateOrder.check, CreateOrder.check_list,
      Pydantic.construct, Pydantic.required, Pydantic.optional. simpl.
    now rewrite check_items_all_valid.
  - intros [n ph its nt]. simpl. intros ->.
    unfold CreateOrder.validate, CreateOrder.check, CreateOrder.check_list,
      Pydantic.construct.
    cbn [CreateOrder.in_customer_name CreateOrder.in_customer_phone
           CreateOrder.in_items CreateOrder.in_notes].
    destruct (Pydantic.required "customer_name" n),
      (Pydantic.required "customer_phone" ph); error_listed.
  - reflexivity.
Qed.

Lemma order_body_accepted_exactly_when_witness :
  CreateOrder.validate
    {| CreateOrder.in_customer_name := Some "Ada";
       CreateOrder.in_customer_phone := Some "555-0100";
       CreateOrder.in_items :=
         Some [{| OrderItem.in_flavor_id := Some "3";
                  OrderItem.in_name := Some "Strawberry Swirl";
                  OrderItem.in_scoops := Some 5%Z;
                  OrderItem.in_price := Some 3.75%float |}];
       CreateOrder.in_notes := Some "in a cup" |}
  = Ok {| CreateOrder.customer_name := "Ada";
          CreateOrder.customer_phone := "555-0100";
          CreateOrder.items :=
            [{| OrderItem.flavor_id := "3"; OrderItem.name := "Strawberry Swirl";
                OrderItem.scoops := 5; OrderItem.price := 3.75 |}];
          CreateOrder.notes := Some "in a cup" |} /\
  exists es,
    CreateOrder.validate
      {| CreateOrder.in_customer_name := Some "Ada";
         CreateOrder.in_customer_phone := Some "555-0100";
         CreateOrder.in_items := None;
         CreateOrder.in_notes := None |}
    = Raise (ValidationError es) /\
    In {| loc := [Key "items"]; type := "missing" |} es.
Proof.
  split.
  - apply (proj1 order_body_accepted_exactly_when). split; [reflexivity|].
    repeat constructor; simpl; discriminate.
  - exact (proj1 (proj2 order_body_accepted_exactly_when)
             {| CreateOrder.in_customer_name := Some "Ada";
                CreateOrder.in_customer_phone := Some "555-0100";
                CreateOrder.in_items := None;
                CreateOrder.in_notes := None |} eq_refl).
Defined.

(** X14. [Icecream] accepts an input exactly when [name] and [price] are
    supplied and [0 <= price]; the instance then carries the supplied
    values, [description] and [image] null when left out, [tags] empty when
    left out and [is_available] true when left out. Leaving out [name] or
    [price] is rejected with [missing] at the field that was left out. *)
Theorem flavor_accepted_exactly_when :
  (forall i f,
      Icecream.validate i = Ok f <->
      Icecream.in_name i = Some (Icecream.name f) /\
      Icecream.description f = Icecream.in_description i /\
      Icecream.in_price i = Some (Icecream.price f) /\
      (0 <=? Icecream.price f)%float = true /\
      Icecream.tags f = default [] (Icecream.in_tags i) /\
      Icecream.image f = Icecream.in_image i /\
      Icecream.is_available f = default true (Icecream.in_is_available i)) /\
  (forall i,
      Icecream.in_name i = None ->
      exists es,
        Icecream.validate i = Raise (ValidationError es) /\
        In {| loc := [Key "name"]; type := "missing" |} es) /\
  (forall i,
      Icecream.in_price i = None ->
      exists es,
        Icecream.validate i = Raise (ValidationError es) /\
        In {| loc := [Key "price"]; type := "missing" |} es).
Proof.
  split; [|split].
  - intros i f. split; [apply Icecream_validate_Ok|].
    destruct i as [n d p tg im av], f as [fn fd fp ftg fim fav].
    cbn [Icecream.in_name Icecream.in_description Icecream.in_price
           Icecream.in_tags Icecream.in_image Icecream.in_is_available
           Icecream.name Icecream.description Icecream.price Icecream.tags
           Icecream.image Icecream.is_available].
    intros (-> & -> & -> & Hp & -> & -> & ->).
    unfold Icecream.validate, Icecream.check, Pydantic.construct, Pydantic.ge_float,
      Pydantic.constrain, Pydantic.required, Pydantic.optional, Pydantic.defaulted.
    simpl. now rewrite Hp.
  - intros [n d p tg im av]. simpl. intros ->.
    unfold Icecream.validate, Icecream.check, Pydantic.construct.
    cbn [Icecream.in_name Icecream.in_description Icecream.in_price
           Icecream.in_tags Icecream.in_image Icecream.in_is_available].
    destruct (Pydantic.ge_float "price" 0 (Pydantic.required "price" p));
      error_listed.
  - intros [n d p tg im av]. simpl. intros ->.
    unfold Icecream.validate, Icecream.check, Pydantic.construct.
    cbn [Icecream.in_name Icecream.in_description Icecream.in_price
           Icecream.in_tags Icecream.in_image Icecream.in_is_available].
    destruct (Pydantic.required "name" n); error_listed.
Qed.

Lemma flavor_accepted_exactly_when_witness :
  Icecream.validate
    {| Icecream.in_name := Some "Pistachio"; Icecream.in_description := None;
       Icecream.in_price := Some 4.25%float; Icecream.in_tags := Some ["nutty"];
       Icecream.in_image := None; Icecream.in_is_available := Some false |}
  = Ok {| Icecream.name := "Pistachio"; Icecream.description := None;
          Icecream.price := 4.25; Icecream.tags := ["nutty"];
          Icecream.image := None; Icecream.is_available := false |} /\
  exists es,
    Icecream.validate
      {| Icecream.in_name := None; Icecream.in_description := None;
         Icecream.in_price := Some 4.25%float; Icecream.in_tags := None;
         Icecream.in_image := None; Icecream.in_is_available := None |}
    = Raise (ValidationError es) /\
    In {| loc := [Key "name"]; type := "missing" |} es.
Proof.
  split.
  - apply (proj1 flavor_accepted_exactly_when). simpl. repeat split; reflexivity.
  - exact (proj1 (proj2 flavor_accepted_exactly_when)
             {| Icecream.in_name := None; Icecream.in_description := None;
                Icecream.in_price := Some 4.25%float; Icecream.in_tags := None;
                Icecream.in_image := None; Icecream.in_is_available := None |}
             eq_refl).
Defined.

(** X15. Placing an order leaves the flavors alone. Over a reachable
    store, after a valid order the [icecream] collection holds what it held,
    and [GET /api/flavors] answers what it answered before the order. *)
Theorem orders_leave_the_flavors_alone
  (body : CreateOrder.input) (payload : CreateOrder.t) (d : Database.Database)
  (Hvalid : CreateOrder.validate body = Ok payload)
  (Hstore : Database.fault d = None) :
  exists response d',
    post_api_orders body (Some d) = (Ok (FastAPI.Http200 response), Some d') /\
    Database.find_all d' "icecream" = Database.find_all d "icecream" /\
    get_flavors (Some d') = (fst (get_flavors (Some d)), Some d').
Proof.
  eexists _, _.
  split; [exact (post_api_orders_valid body payload d Hvalid Hstore)|].
  set (d' := snd (Database.insert_one d "order" (Order.model_dump (order_of payload)))).
  assert (Hd' : Database.fault d' = None) by exact Hstore.
  assert (Hflavors : Database.find_all d' "icecream" = Database.find_all d "icecream")
    by now apply find_all_insert_one_ne.
  split; [exact Hflavors|].
  rewrite !get_flavors_reachable by assumption. now rewrite Hflavors.
Qed.

Lemma orders_leave_the_flavors_alone_witness :
  exists response d',
    post_api_orders
      {| CreateOrder.in_customer_name := Some "Ada";
         CreateOrder.in_customer_phone := Some "555-0100";
         CreateOrder.in_items :=
           Some [{| OrderItem.in_flavor_id := Some "00000000000000000000001a";
                    OrderItem.in_name := Some "Vanilla Bean";
                    OrderItem.in_scoops := Some 1%Z;
                    OrderItem.in_price := Some 3.5%float |}];
         CreateOrder.in_notes := None |}
      (Some two_flavor_store)
    = (Ok (FastAPI.Http200 response), Some d') /\
    get_flavors (Some d')
    = (Ok (VList [VDict [("_id", VStr "00000000000000000000001a");
                         ("name", VStr "Vanilla Bean");
                         ("price", VFloat 3.5);
                         ("tags", VList [VStr "classic"; VStr "creamy"])];
                  VDict [("_id", VStr "00000000000000000000001b");
                         ("name", VStr "Dark Chocolate");
                         ("price", VFloat 3.75);
                         ("tags", VList [VStr "chocolate"; VStr "rich"])]]),
       Some d').
Proof.
  destruct (orders_leave_the_flavors_alone
              {| CreateOrder.in_customer_name := Some "Ada";
                 CreateOrder.in_customer_phone := Some "555-0100";
                 CreateOrder.in_items :=
                   Some [{| OrderItem.in_flavor_id := Some "00000000000000000000001a";
                            OrderItem.in_name := Some "Vanilla Bean";
                            OrderItem.in_scoops := Some 1%Z;
                            OrderItem.in_price := Some 3.5%float |}];
                 CreateOrder.in_notes := None |}
              {| CreateOrder.customer_name := "Ada";
                 CreateOrder.customer_phone := "555-0100";
                 CreateOrder.items :=
                   [{| OrderItem.flavor_id := "00000000000000000000001a";
                       OrderItem.name := "Vanilla Bean";
                       OrderItem.scoops := 1; OrderItem.price := 3.5 |}];
                 CreateOrder.notes := None |}
              two_flavor_store eq_refl eq_refl)
    as (response & d' & Hpost & _ & Hflavors).
  exists response, d'. exact (conj Hpost Hflavors).
Defined.
